(** * Reconciliation of Elasticsearch roles and users

    A shallow embedding of
      - [plugins/module_utils/api.py]                (client factory, version pairing),
      - [plugins/module_utils/elasticsearch_role.py] (class [Role]),
      - [plugins/module_utils/elasticsearch_user.py] (class [User]),
      - [plugins/modules/elasticsearch_role.py] and
        [plugins/modules/elasticsearch_user.py]      ([run_module]),
      - [plugins/module_utils/certs.py]              (the helper functions),
    followed by the properties established about them.

    Python values are a small JSON-like inductive type; the remote cluster is
    an arbitrary transition system answering the calls of the
    elasticsearch-py client; the handlers are programs of a state and
    exception monad whose state carries the remote system, the chronological
    list of calls issued so far and the mutable [self.result] dictionary. *)

From Stdlib Require Import List String Ascii ZArith Bool Lia.
From Stdlib Require Import DecimalString.
From Stdlib Require Import Strings.Byte.
Import ListNotations.
Local Open Scope string_scope.
Local Open Scope Z_scope.

(** ** Python values *)

(** The JSON fragment of Python's values: what the cluster's API returns and
    what the modules pass to it.  Dictionaries have string keys and are kept as
    association lists read through [dict_get] (first binding wins). *)
#[local] Unset Elimination Schemes.
Inductive value : Type :=
| VNone
| VBool (b : bool)
| VInt (n : Z)
| VStr (s : string)
| VList (l : list value)
| VDict (d : list (string * value)).
#[local] Set Elimination Schemes.

Definition dict : Type := list (string * value).

(** [d.get(k)] without the default: [None] here stands for "no such key". *)
Fixpoint dict_get (k : string) (d : dict) : option value :=
  match d with
  | [] => None
  | (k', v) :: r => if String.eqb k k' then Some v else dict_get k r
  end.

(** [k in d] *)
Definition dict_mem (k : string) (d : dict) : bool :=
  match dict_get k d with Some _ => true | None => false end.

(** [d.get(k, default)] *)
Definition dict_get_default (k : string) (d : dict) (default : value) : value :=
  match dict_get k d with Some v => v | None => default end.

Fixpoint str_mem (k : string) (l : list string) : bool :=
  match l with
  | [] => false
  | k' :: r => String.eqb k k' || str_mem k r
  end.

(** Python's [==] on these values.  [True == 1] and [False == 0] hold in
    Python, lists are compared position by position, dictionaries as mappings
    (same keys, equal values, whatever the order). *)
Section Equality.
Variable eq : value -> value -> bool.

Fixpoint list_eq (l m : list value) {struct l} : bool :=
  match l, m with
  | [], [] => true
  | x :: l', y :: m' => eq x y && list_eq l' m'
  | _, _ => false
  end.

(** Every key of [d] not in [seen] is bound in [e] to an equal value; a key
    is looked at once, at its first binding. *)
Fixpoint dict_sub (e : dict) (seen : list string) (d : dict) {struct d}
  : bool :=
  match d with
  | [] => true
  | (k, v) :: r =>
      (if str_mem k seen then true
       else match dict_get k e with
            | Some w => eq v w
            | None => false
            end)
      && dict_sub e (k :: seen) r
  end.
End Equality.

Fixpoint py_eq (a b : value) {struct a} : bool :=
  match a, b with
  | VNone, VNone => true
  | VBool x, VBool y => Bool.eqb x y
  | VBool x, VInt n => Z.b2z x =? n
  | VInt n, VBool x => n =? Z.b2z x
  | VInt m, VInt n => m =? n
  | VStr s, VStr t => String.eqb s t
  | VList l, VList m => list_eq py_eq l m
  | VDict d, VDict e =>
      dict_sub py_eq e [] d && forallb (fun kv => dict_mem (fst kv) d) e
  | _, _ => false
  end.

(** [a != b] *)
Definition py_ne (a b : value) : bool := negb (py_eq a b).

(** [v is True]: identity with the singleton [True]. *)
Definition is_True (v : value) : bool :=
  match v with VBool true => true | _ => false end.

(** [str(n)] for an [int]. *)
Definition str_int (n : Z) : string := NilZero.string_of_int (Z.to_int n).

(** ** Exceptions *)

Inductive exn : Type :=
| ApiError (msg : string)        (* api.py, class ApiError *)
| KeyError (key : string)        (* d[k] on a missing key *)
| TypeError (msg : string)       (* v[k] on a value that cannot be subscripted *)
| AttributeError (msg : string)  (* v.get on a value that is no dict *)
| TransportError (msg : string). (* anything the client library raises *)

(** [str(e)]; only exceptions caught by an [except] clause are rendered. *)
Definition str_exn (e : exn) : string :=
  match e with
  | ApiError m => m
  | KeyError k => "'" ++ k ++ "'"
  | TypeError m => m
  | AttributeError m => m
  | TransportError m => m
  end.

(** ** api.py: the version pairing *)

Module Api.

(** The dictionary built at lines 128-133 of api.py. *)
Record report : Type := mk_report {
  client_version : Z;
  server_version : Z;
  compatible : bool;
  message : string
}.

(** [Api.check_version_compatibility], lines 128-165, as a function of the
    two major versions read at lines 125-126 ([Api.get_client_version()] and
    [Api.get_server_version(client)]). *)
Definition check_version_compatibility (client_ver server_ver : Z)
  : exn + report :=
  let result := mk_report client_ver server_ver true "" in
  if (client_ver =? 9) && (server_ver =? 8) then
    let result := mk_report client_ver server_ver false
      ("Incompatible versions: elasticsearch-py " ++ str_int client_ver
       ++ ".x cannot connect to Elasticsearch " ++ str_int server_ver
       ++ ".x. Install 'elasticsearch>=8,<9' or upgrade "
       ++ "your Elasticsearch server to 9.x first.") in
    inl (ApiError (message result))
  else if (client_ver =? 8) && (server_ver =? 9) then
    inr (mk_report client_ver server_ver true
      ("elasticsearch-py " ++ str_int client_ver
       ++ ".x is forward-compatible with Elasticsearch "
       ++ str_int server_ver
       ++ ".x. Consider upgrading to 'elasticsearch>=9,<10' for full "
       ++ "ES 9.x feature support."))
  else if client_ver =? server_ver then
    inr (mk_report client_ver server_ver true
      ("elasticsearch-py " ++ str_int client_ver
       ++ ".x is fully compatible with "
       ++ "Elasticsearch " ++ str_int server_ver ++ ".x."))
  else
    inr (mk_report client_ver server_ver true
      ("elasticsearch-py " ++ str_int client_ver ++ ".x with Elasticsearch "
       ++ str_int server_ver ++ ".x - "
       ++ "compatibility not verified.")).

End Api.

(** ** The remote system, seen through the elasticsearch-py client *)

(** The client calls the modules make.  [security_get_role None] is
    [client.security.get_role()], [security_get_role (Some n)] is
    [client.security.get_role(name=n)]; the [put] calls carry their keyword
    arguments. *)
Inductive call : Type :=
| info
| security_get_role (name : option string)
| security_put_role (kwargs : dict)
| security_delete_role (name : string)
| security_get_user (username : option string)
| security_put_user (kwargs : dict)
| security_delete_user (username : string).

(** Calls that write to the cluster. *)
Definition mutating (c : call) : bool :=
  match c with
  | security_put_role _ | security_delete_role _
  | security_put_user _ | security_delete_user _ => true
  | _ => false
  end.

(** A call either raises or returns an [ObjectApiResponse]; the response is
    identified with its body ([.raw]), a dictionary. *)
Definition response : Type := (exn + dict)%type.

(** The cluster: any transition system answering calls. *)
Definition remote (World : Type) : Type := call -> World -> response * World.

(** ** Results handed back to Ansible *)

(** [''] and [str(v)]: the rendering of a value is kept symbolic. *)
Inductive text : Type :=
| Lit (s : string)
| Str (v : value).

Record diff_dict : Type := mk_diff { before : text; after : text }.

(** [self.result]: [changed] is always set, [msg] and [diff] are optional
    keys. *)
Record result_dict : Type := mk_result {
  changed : bool;
  msg : option string;
  diff : option diff_dict
}.

(** The two attributes of [AnsibleModule] the classes read. *)
Record AnsibleModule : Type := mk_module {
  check_mode : bool;
  _diff : bool
}.

(** ** The monad of the handlers *)

(** How a computation ends: it returns, [module.fail_json] ends the process,
    or an exception propagates. *)
Inductive outcome (A : Type) : Type :=
| Done (a : A)
| FailJson (m : string)
| Raised (e : exn).
Arguments Done {A} a.
Arguments FailJson {A} m.
Arguments Raised {A} e.

Record store (World : Type) : Type := mk_store {
  world : World;
  trace : list call;
  result : result_dict
}.
Arguments mk_store {World} _ _ _.
Arguments world {World} _.
Arguments trace {World} _.
Arguments result {World} _.

Definition M (S A : Type) : Type := S -> outcome A * S.

Definition ret {S A} (a : A) : M S A := fun s => (Done a, s).

Definition bind {S A B} (m : M S A) (k : A -> M S B) : M S B :=
  fun s =>
    match m s with
    | (Done a, s') => k a s'
    | (FailJson t, s') => (FailJson t, s')
    | (Raised e, s') => (Raised e, s')
    end.

Definition raise {S A} (e : exn) : M S A := fun s => (Raised e, s).

(** [module.fail_json(msg=m)] *)
Definition fail_json {S A} (m : string) : M S A := fun s => (FailJson m, s).

(** [try: m  except Exception as e: h e] *)
Definition try_except {S A} (m : M S A) (h : exn -> M S A) : M S A :=
  fun s =>
    match m s with
    | (Raised e, s') => h e s'
    | r => r
    end.

(** [try: m  except ApiError as e: h e] *)
Definition try_except_ApiError {S A} (m : M S A) (h : exn -> M S A) : M S A :=
  fun s =>
    match m s with
    | (Raised (ApiError t), s') => h (ApiError t) s'
    | r => r
    end.

Declare Scope monad_scope.
Delimit Scope monad_scope with monad.
Notation "x <- m ;; k" := (bind m (fun x => k))
  (at level 61, m at next level, right associativity) : monad_scope.
Notation "m ;; k" := (bind m (fun _ => k))
  (at level 61, right associativity) : monad_scope.
Local Open Scope monad_scope.

(** Issue a client call: the call is logged, the cluster answers. *)
Definition perform {World} (respond : remote World) (c : call)
  : M (store World) dict :=
  fun s =>
    let (r, w') := respond c (world s) in
    let s' := mk_store w' (trace s ++ [c]) (result s) in
    match r with
    | inl e => (Raised e, s')
    | inr d => (Done d, s')
    end.

(** [self.result['changed'] = b] *)
Definition set_changed {World} (b : bool) : M (store World) unit :=
  fun s =>
    (Done tt, mk_store (world s) (trace s)
                (mk_result b (msg (result s)) (diff (result s)))).

(** [self.result['msg'] = t] *)
Definition set_msg {World} (t : string) : M (store World) unit :=
  fun s =>
    (Done tt, mk_store (world s) (trace s)
                (mk_result (changed (result s)) (Some t) (diff (result s)))).

(** [self.result['diff'] = d] *)
Definition set_diff {World} (d : diff_dict) : M (store World) unit :=
  fun s =>
    (Done tt, mk_store (world s) (trace s)
                (mk_result (changed (result s)) (msg (result s)) (Some d))).

(** [self.result = r] *)
Definition set_result {World} (r : result_dict) : M (store World) unit :=
  fun s => (Done tt, mk_store (world s) (trace s) r).

Definition get_result {World} : M (store World) result_dict :=
  fun s => (Done (result s), s).

(** [d[k]] on a response body. *)
Definition getitem {S} (d : dict) (k : string) : M S value :=
  match dict_get k d with
  | Some v => ret v
  | None => raise (KeyError k)
  end.

Definition type_name (v : value) : string :=
  match v with
  | VNone => "NoneType"
  | VBool _ => "bool"
  | VInt _ => "int"
  | VStr _ => "str"
  | VList _ => "list"
  | VDict _ => "dict"
  end.

(** The message of the [TypeError] of [v[k]], [k] a string, as CPython 3.11
    words it. *)
Definition subscript_error (v : value) : string :=
  match v with
  | VStr _ => "string indices must be integers, not 'str'"
  | VList _ => "list indices must be integers or slices, not str"
  | _ => "'" ++ type_name v ++ "' object is not subscriptable"
  end.

(** [v[k]] with a string key on an arbitrary value. *)
Definition value_getitem {S} (v : value) (k : string) : M S value :=
  match v with
  | VDict d => getitem d k
  | _ => raise (TypeError (subscript_error v))
  end.

(** [v.get(k)]: only dictionaries have the method. *)
Definition value_get {S} (v : value) (k : string) : M S value :=
  match v with
  | VDict d => ret (dict_get_default k d VNone)
  | _ => raise (AttributeError
                  ("'" ++ type_name v ++ "' object has no attribute 'get'"))
  end.

(** [{k: f(k) for k in keys}] *)
Fixpoint dict_comprehension {S} (f : string -> M S value) (keys : list string)
  : M S dict :=
  match keys with
  | [] => ret []
  | k :: r =>
      v <- f k ;;
      d <- dict_comprehension f r ;;
      ret ((k, v) :: d)
  end.

(** The module-level state of api.py and the behaviour of the client
    constructor ([ssl.create_default_context] and [Elasticsearch(...)]), which
    either succeeds or raises. *)
Record environment : Type := mk_env {
  HAS_ELASTICSEARCH : bool;
  ES_CLIENT_VERSION : Z;
  Elasticsearch_raises : option exn
}.

Module ApiClient.

Definition check_elasticsearch_import {S} (env : environment) : M S unit :=
  if negb (HAS_ELASTICSEARCH env) then
    raise (ApiError
      ("The 'elasticsearch' Python library is required. "
       ++ "Install it with: pip install 'elasticsearch>=8,<9' (for ES 8.x) "
       ++ "or 'elasticsearch>=9,<10' (for ES 9.x)"))
  else ret tt.

Definition get_client_version (env : environment) : Z :=
  ES_CLIENT_VERSION env.

(** The connection parameters only reach the constructor; no call is made
    on the cluster. *)
Definition new_client_basic_auth {S} (env : environment) : M S unit :=
  check_elasticsearch_import env ;;
  match Elasticsearch_raises env with
  | Some e => raise e
  | None => ret tt
  end.

End ApiClient.

(** ** module_utils/elasticsearch_role.py: class [Role] *)

Module Role.

(** The attributes set by [__init__] from its arguments.  [cluster] and
    [indices] are passed on as they are ([None] when not given). *)
Record self : Type := mk_self {
  module : AnsibleModule;
  role_name : string;
  cluster : value;
  indices : value;
  state : string
}.

Section Methods.
Context {World : Type}.
Variable respond : remote World.
Variable env : environment.
Variable this : self.

Definition get_all : M (store World) dict :=
  perform respond (security_get_role None).

Definition get : M (store World) dict :=
  perform respond (security_get_role (Some (role_name this))).

Definition put : M (store World) dict :=
  perform respond
    (security_put_role [("name", VStr (role_name this));
                        ("cluster", cluster this);
                        ("indices", indices this)]).

Definition delete : M (store World) dict :=
  perform respond (security_delete_role (role_name this)).

Definition handle_absent : M (store World) unit :=
  all_roles <- try_except get_all
    (fun e => fail_json ("Failed to get roles: " ++ str_exn e)) ;;
  if negb (dict_mem (role_name this) all_roles) then ret tt
  else if check_mode (module this) then
    set_changed true ;;
    set_msg (role_name this ++ " would be deleted")
  else
    res <- try_except delete
      (fun e => fail_json ("Failed to delete role '" ++ role_name this
                           ++ "': " ++ str_exn e)) ;;
    found <- getitem res "found" ;;
    if is_True found then
      set_changed true ;;
      set_msg (role_name this ++ " has been deleted")
    else ret tt.

Definition handle_present : M (store World) unit :=
  all_roles <- try_except get_all
    (fun e => fail_json ("Failed to get roles: " ++ str_exn e)) ;;
  pre_role <- (if dict_mem (role_name this) all_roles
               then (r <- get ;; ret (Some r))
               else ret None) ;;
  if check_mode (module this) then
    set_changed true ;;
    match pre_role with
    | None => set_msg (role_name this ++ " would be created")
    | Some _ => set_msg (role_name this ++ " would be updated")
    end
  else
    res <- try_except put
      (fun e => fail_json ("Failed to create/update role '"
                           ++ role_name this ++ "': " ++ str_exn e)) ;;
    role <- getitem res "role" ;;
    created <- value_getitem role "created" ;;
    if is_True created then
      set_changed true ;;
      set_msg (role_name this ++ " has been created") ;;
      if _diff (module this) then
        post <- get ;;
        set_diff (mk_diff (Lit "") (Str (VDict post)))
      else ret tt
    else
      match pre_role with
      | None => ret tt
      | Some pre_role =>
          post_role <- get ;;
          if py_ne (VDict pre_role) (VDict post_role) then
            set_changed true ;;
            set_msg (role_name this ++ " has been updated") ;;
            if _diff (module this) then
              set_diff (mk_diff (Str (VDict pre_role))
                                (Str (VDict post_role)))
            else ret tt
          else ret tt
      end.

Definition handle : M (store World) unit :=
  if String.eqb (state this) "absent" then handle_absent
  else if String.eqb (state this) "present" then handle_present
  else ret tt.

Definition __init__ : M (store World) unit :=
  set_result (mk_result false None None) ;;
  try_except_ApiError (ApiClient.new_client_basic_auth env)
    (fun e => fail_json (str_exn e)) ;;
  handle.

Definition return_result : M (store World) result_dict := get_result.

(** modules/elasticsearch_role.py, [run_module]: build the [Role], hand
    its result to [module.exit_json]. *)
Definition run_module : M (store World) result_dict :=
  __init__ ;;
  return_result.

End Methods.

End Role.

(** ** module_utils/elasticsearch_user.py: class [User] *)

Module User.

(** The attributes set by [__init__]; their types are those of the
    [argument_spec] of modules/elasticsearch_user.py: [fullname] and [email]
    are optional strings, [password] and [roles] are required. *)
Record self : Type := mk_self {
  module : AnsibleModule;
  user_name : string;
  full_name : option string;
  password : string;
  email : option string;
  roles : list string;
  enabled : bool;
  state : string;
  update_password : string
}.

Definition opt_str (o : option string) : value :=
  match o with Some s => VStr s | None => VNone end.

Definition compare_keys : list string :=
  ["roles"; "full_name"; "email"; "enabled"; "metadata"].

Section Methods.
Context {World : Type}.
Variable respond : remote World.
Variable env : environment.
Variable this : self.

Definition get_all : M (store World) dict :=
  perform respond (security_get_user None).

Definition get : M (store World) dict :=
  perform respond (security_get_user (Some (user_name this))).

(** The keyword arguments [put] builds. *)
Definition put_kwargs (password : option string) : dict :=
  let kwargs := [("username", VStr (user_name this));
                 ("email", opt_str (email this));
                 ("full_name", opt_str (full_name this));
                 ("enabled", VBool (enabled this));
                 ("roles", VList (map VStr (roles this)))] in
  match password with
  | Some p => (kwargs ++ [("password", VStr p)])%list
  | None => kwargs
  end.

Definition put (password : option string) : M (store World) dict :=
  perform respond (security_put_user (put_kwargs password)).

Definition delete : M (store World) dict :=
  perform respond (security_delete_user (user_name this)).

Definition handle_absent : M (store World) unit :=
  all_users <- try_except get_all
    (fun e => fail_json ("Failed to get users: " ++ str_exn e)) ;;
  if negb (dict_mem (user_name this) all_users) then ret tt
  else if check_mode (module this) then
    set_changed true ;;
    set_msg (user_name this ++ " would be deleted")
  else
    res <- try_except delete
      (fun e => fail_json ("Failed to delete user '" ++ user_name this
                           ++ "': " ++ str_exn e)) ;;
    found <- getitem res "found" ;;
    if is_True found then
      set_changed true ;;
      set_msg (user_name this ++ " has been deleted")
    else ret tt.

Definition handle_present : M (store World) unit :=
  all_users <- try_except get_all
    (fun e => fail_json ("Failed to get users: " ++ str_exn e)) ;;
  let user_exists := dict_mem (user_name this) all_users in
  pre_user <- (if user_exists
               then (u <- get ;; ret (Some u))
               else ret None) ;;
  if check_mode (module this) then
    set_changed true ;;
    match pre_user with
    | None => set_msg (user_name this ++ " would be created")
    | Some _ => set_msg (user_name this ++ " would be updated")
    end
  else
    res <- try_except
      (let send_password :=
         if String.eqb (update_password this) "on_create" && user_exists
         then None
         else Some (password this) in
       put send_password)
      (fun e => fail_json ("Failed to create/update user '"
                           ++ user_name this ++ "': " ++ str_exn e)) ;;
    created <- getitem res "created" ;;
    if is_True created then
      set_changed true ;;
      set_msg (user_name this ++ " has been created") ;;
      if _diff (module this) then
        post <- get ;;
        set_diff (mk_diff (Lit "") (Str (VDict post)))
      else ret tt
    else
      match pre_user with
      | None => ret tt
      | Some pre_user =>
          post_user <- get ;;
          let pre_data :=
            dict_get_default (user_name this) pre_user (VDict []) in
          let post_data :=
            dict_get_default (user_name this) post_user (VDict []) in
          pre_compare <-
            dict_comprehension (value_get pre_data) compare_keys ;;
          post_compare <-
            dict_comprehension (value_get post_data) compare_keys ;;
          if py_ne (VDict pre_compare) (VDict post_compare) then
            set_changed true ;;
            set_msg (user_name this ++ " has been updated") ;;
            if _diff (module this) then
              set_diff (mk_diff (Str pre_data) (Str post_data))
            else ret tt
          else ret tt
      end.

Definition handle : M (store World) unit :=
  if String.eqb (state this) "absent" then handle_absent
  else if String.eqb (state this) "present" then handle_present
  else ret tt.

Definition __init__ : M (store World) unit :=
  set_result (mk_result false None None) ;;
  try_except_ApiError (ApiClient.new_client_basic_auth env)
    (fun e => fail_json (str_exn e)) ;;
  handle.

Definition return_result : M (store World) result_dict := get_result.

(** modules/elasticsearch_user.py, [run_module]. *)
Definition run_module : M (store World) result_dict :=
  __init__ ;;
  return_result.

End Methods.

End User.

Arguments User.put_kwargs : simpl never.

(** ** One invocation, for either kind of resource *)

Inductive resource : Type :=
| RoleOf (r : Role.self)
| UserOf (u : User.self).

Definition name_of (x : resource) : string :=
  match x with
  | RoleOf r => Role.role_name r
  | UserOf u => User.user_name u
  end.

Definition state_of (x : resource) : string :=
  match x with
  | RoleOf r => Role.state r
  | UserOf u => User.state u
  end.

Definition module_of (x : resource) : AnsibleModule :=
  match x with
  | RoleOf r => Role.module r
  | UserOf u => User.module u
  end.

(** The calls behind [get_all], [get] and [delete] of either class. *)
Definition list_call (x : resource) : call :=
  match x with
  | RoleOf _ => security_get_role None
  | UserOf _ => security_get_user None
  end.

Definition get_call (x : resource) : call :=
  match x with
  | RoleOf r => security_get_role (Some (Role.role_name r))
  | UserOf u => security_get_user (Some (User.user_name u))
  end.

Definition delete_call (x : resource) : call :=
  match x with
  | RoleOf r => security_delete_role (Role.role_name r)
  | UserOf u => security_delete_user (User.user_name u)
  end.

(** "roles" / "users" in the message of a failed listing. *)
Definition plural (x : resource) : string :=
  match x with RoleOf _ => "roles" | UserOf _ => "users" end.

(** Where the put response says whether the resource was created:
    [res.raw['role']['created']] for a role, [res.raw['created']] for a
    user. *)
Definition created_flag (x : resource) (res : dict) : option value :=
  match x with
  | RoleOf _ =>
      match dict_get "role" res with
      | Some (VDict d) => dict_get "created" d
      | _ => None
      end
  | UserOf _ => dict_get "created" res
  end.

(** The store a process starts with: nothing called yet. *)
Definition initial {World} (w : World) : store World :=
  mk_store w [] (mk_result false None None).

(** [run_module] of the module that manages [x]. *)
Definition invoke {World} (respond : remote World) (env : environment)
    (x : resource) (w : World) : outcome result_dict * store World :=
  match x with
  | RoleOf r => Role.run_module respond env r (initial w)
  | UserOf u => User.run_module respond env u (initial w)
  end.

(** The library is installed and the client object can be built. *)
Definition client_ok (env : environment) : Prop :=
  HAS_ELASTICSEARCH env = true /\ Elasticsearch_raises env = None.

(** A cluster that answers from a fixed script, whatever the call. *)
Definition scripted : remote (list response) :=
  fun _ w =>
    match w with
    | [] => (inl (TransportError "connection refused"), [])
    | r :: w' => (r, w')
    end.

Definition env9 : environment := mk_env true 9 None.

(** The call behind [put]; [exists_] tells whether the name was in the
    listing, which decides whether a user's password is sent. *)
Definition put_call (x : resource) (exists_ : bool) : call :=
  match x with
  | RoleOf r =>
      security_put_role [("name", VStr (Role.role_name r));
                         ("cluster", Role.cluster r);
                         ("indices", Role.indices r)]
  | UserOf u =>
      security_put_user
        (User.put_kwargs u
           (if String.eqb (User.update_password u) "on_create" && exists_
            then None
            else Some (User.password u)))
  end.

(** What [{k: data.get(k) for k in compare_keys}] evaluates to on a
    dictionary. *)
Definition comparable_projection (data : dict) : dict :=
  map (fun k => (k, dict_get_default k data VNone)) User.compare_keys.

(** What the two classes compare and show of a snapshot: a role's whole
    response body, a user's entry under its own name ([{}] when missing). *)
Definition shown (x : resource) (snapshot : dict) : value :=
  match x with
  | RoleOf _ => VDict snapshot
  | UserOf u => dict_get_default (User.user_name u) snapshot (VDict [])
  end.

(** What enters the comparison of two snapshots. *)
Definition compared (x : resource) (snapshot : dict) : option value :=
  match x with
  | RoleOf _ => Some (VDict snapshot)
  | UserOf u =>
      match dict_get_default (User.user_name u) snapshot (VDict []) with
      | VDict data => Some (VDict (comparable_projection data))
      | _ => None
      end
  end.

(** Induction on values, through lists and dictionaries. *)
Section ValueInduction.
Variable P : value -> Prop.
Hypothesis HNone : P VNone.
Hypothesis HBool : forall b, P (VBool b).
Hypothesis HInt : forall n, P (VInt n).
Hypothesis HStr : forall s, P (VStr s).
Hypothesis HList : forall l, Forall P l -> P (VList l).
Hypothesis HDict : forall d, Forall (fun kv => P (snd kv)) d -> P (VDict d).

Fixpoint value_induction (v : value) : P v :=
  match v with
  | VNone => HNone
  | VBool b => HBool b
  | VInt n => HInt n
  | VStr s => HStr s
  | VList l =>
      HList l
        ((fix all (l : list value) : Forall P l :=
            match l with
            | [] => Forall_nil P
            | x :: r => Forall_cons x (value_induction x) (all r)
            end) l)
  | VDict d =>
      HDict d
        ((fix all (d : dict) : Forall (fun kv => P (snd kv)) d :=
            match d with
            | [] => Forall_nil _
            | (k, x) :: r =>
                Forall_cons (k, x) (value_induction x) (all r)
            end) d)
  end.
End ValueInduction.

(** A cluster of major version 8 holding no role and no user: [info] reports
    the version, every listing is empty, every put creates. *)
Definition es8_cluster : remote unit :=
  fun c w =>
    match c with
    | info => (inr [("version", VDict [("number", VStr "8.19.3")])], w)
    | security_get_role _ | security_get_user _ => (inr [], w)
    | security_put_role _ => (inr [("role", VDict [("created", VBool true)])], w)
    | security_put_user _ => (inr [("created", VBool true)], w)
    | security_delete_role _ | security_delete_user _ =>
        (inr [("found", VBool false)], w)
    end.

(** Sample desired states. *)
Definition r1 (st : string) (check diff_ : bool) : resource :=
  RoleOf (Role.mk_self (mk_module check diff_) "r1"
            (VList [VStr "monitor"]) VNone st).

Definition u1 (st : string) (check diff_ : bool) (policy : string)
  : resource :=
  UserOf (User.mk_self (mk_module check diff_) "u1" (Some "User One") "p1"
            None ["a"] true st policy).

(** The keyword arguments of the [put_user] calls of a trace, in order. *)
Fixpoint put_user_payloads (t : list call) : list dict :=
  match t with
  | [] => []
  | security_put_user kwargs :: r => kwargs :: put_user_payloads r
  | _ :: r => put_user_payloads r
  end.

(** The call [Api.get_server_version] makes (api.py, line 100), hence the
    first thing [Api.check_version_compatibility(client)] does. *)
Definition is_info (c : call) : bool :=
  match c with info => true | _ => false end.

(** The entry of user "u1" in a [get_user] response, and the answers of a
    cluster on which the user's role changes from "a" to "b". *)
Definition u1_entry (role : string) : dict :=
  [("username", VStr "u1"); ("roles", VList [VStr role])].

Definition u1_update_script : list response :=
  [inr [("u1", VDict (u1_entry "a"))];
   inr [("u1", VDict (u1_entry "a"))];
   inr [("created", VBool false)];
   inr [("u1", VDict (u1_entry "b"))]].

(** ** Running the handlers *)

Ltac unfold_run :=
  unfold invoke, initial,
    Role.run_module, Role.__init__, Role.return_result, Role.handle,
    Role.handle_absent, Role.handle_present,
    Role.get_all, Role.get, Role.put, Role.delete,
    User.run_module, User.__init__, User.return_result, User.handle,
    User.handle_absent, User.handle_present,
    User.get_all, User.get, User.put, User.delete,
    ApiClient.new_client_basic_auth, ApiClient.check_elasticsearch_import,
    get_result, set_result, set_changed, set_msg, set_diff,
    try_except, try_except_ApiError, bind, ret, raise, fail_json, perform,
    getitem, value_getitem.

(** Follow the one path the hypotheses describe. *)
Ltac follow :=
  repeat (progress (unfold_run; cbn; rewrite ?andb_false_r, ?andb_true_r)
          || match goal with
             | H : _ = _ |- _ => rewrite H
             end).

(** Split on whatever the next step of the run depends on. *)
Ltac explore :=
  repeat (progress (unfold_run; unfold value_get; cbn;
                    rewrite ?andb_false_r, ?andb_true_r)
          || match goal with
             | H : _ = _ |- _ => rewrite H
             | R : remote _ |- context [?f ?c ?w] =>
                 constr_eq f R; destruct (R c w) as [[?e|?d] ?w]
             | |- context [match ?o with Some _ => _ | None => _ end] =>
                 destruct o eqn:?
             | |- context [match ?e with ApiError _ => _ | _ => _ end] =>
                 destruct e
             | |- context [if ?b then _ else _] => destruct b eqn:?
             | |- context [match ?v with VNone => _ | _ => _ end] =>
                 destruct v
             end).

(** ** Further definitions for the statements *)

(** The eight sequences of calls an invocation can issue. *)
Definition trace_shapes (x : resource) : list (list call) :=
  [ [];
    [list_call x];
    [list_call x; delete_call x];
    [list_call x; get_call x];
    [list_call x; put_call x false];
    [list_call x; put_call x false; get_call x];
    [list_call x; get_call x; put_call x true];
    [list_call x; get_call x; put_call x true; get_call x] ].

(** "role" / "user" in the messages of a failed put or delete. *)
Definition singular (x : resource) : string :=
  match x with RoleOf _ => "role" | UserOf _ => "user" end.

(** The calls up to the put: the listing, then the pre-fetch when the name
    is listed. *)
Definition reads_before_put (x : resource) (listed : bool) : list call :=
  if listed then [list_call x; get_call x] else [list_call x].

(** The same desired state run with [module.check_mode] set to [b]. *)
Definition with_check_mode (b : bool) (x : resource) : resource :=
  match x with
  | RoleOf r =>
      RoleOf (Role.mk_self (mk_module b (_diff (Role.module r)))
                (Role.role_name r) (Role.cluster r) (Role.indices r)
                (Role.state r))
  | UserOf u =>
      UserOf (User.mk_self (mk_module b (_diff (User.module u)))
                (User.user_name u) (User.full_name u) (User.password u)
                (User.email u) (User.roles u) (User.enabled u)
                (User.state u) (User.update_password u))
  end.

(** ** module_utils/certs.py: the helper functions *)

Module Certs.

(** [SUPPORTED_EXTENSIONS], in the order the dictionary is written. *)
Definition SUPPORTED_EXTENSIONS : list (string * list string) :=
  [("basicConstraints", ["_ca"; "_path_length"]);
   ("subjectKeyIdentifier", ["_digest"]);
   ("authorityKeyIdentifier",
    ["_authority_cert_issuer"; "_authority_cert_serial_number";
     "_key_identifier"])].

Definition hex_digit (n : N) : ascii :=
  match n with
  | 0 => "0" | 1 => "1" | 2 => "2" | 3 => "3" | 4 => "4" | 5 => "5"
  | 6 => "6" | 7 => "7" | 8 => "8" | 9 => "9" | 10 => "A" | 11 => "B"
  | 12 => "C" | 13 => "D" | 14 => "E" | _ => "F"
  end%N%char.

(** ['%02X' % b] for an element [b] of a [bytes] object. *)
Definition format_02X (b : byte) : string :=
  let n := Byte.to_N b in
  String (hex_digit (n / 16)) (String (hex_digit (n mod 16)) "").

(** [':'.join('%02X' % b for b in bytes_str)] *)
Definition bytes_to_hex (bytes_str : list byte) : string :=
  String.concat ":" (map format_02X bytes_str).

(** [a in b] for two strings: [a] occurs in [b]. *)
Fixpoint str_in (a b : string) {struct b} : bool :=
  String.prefix a b
  || match b with
     | EmptyString => false
     | String _ b' => str_in a b'
     end.

(** [any(name in extension_name for name in SUPPORTED_EXTENSIONS)] *)
Definition check_supported_extensions (extension_name : string) : bool :=
  existsb (fun name => str_in name extension_name)
          (map fst SUPPORTED_EXTENSIONS).

(** [SUPPORTED_EXTENSIONS.get(extension_name, [])] *)
Fixpoint supported_keys_of (extension_name : string)
    (table : list (string * list string)) : list string :=
  match table with
  | [] => []
  | (name, keys) :: r =>
      if String.eqb extension_name name then keys
      else supported_keys_of extension_name r
  end.

(** [key in SUPPORTED_EXTENSIONS.get(extension_name, [])] *)
Definition check_supported_keys (key extension_name : string) : bool :=
  str_mem key (supported_keys_of extension_name SUPPORTED_EXTENSIONS).

(** An attribute value of an extension: a [bytes] object or anything else. *)
Inductive attribute : Type :=
| ABytes (b : list byte)
| AOther (v : value).

(** [to_text(value)] after the [isinstance(value, bytes)] conversion: the hex
    string for bytes, a string as it is, [str(v)] for any other value. *)
Definition render (a : attribute) : text :=
  match a with
  | ABytes b => Lit (bytes_to_hex b)
  | AOther (VStr s) => Lit s
  | AOther v => Str v
  end.

(** [d[k] = t] on a dictionary of texts: an existing key keeps its place. *)
Fixpoint text_dict_set (k : string) (t : text) (d : list (string * text))
  : list (string * text) :=
  match d with
  | [] => [(k, t)]
  | (k', t') :: r =>
      if String.eqb k k' then (k, t) :: r
      else (k', t') :: text_dict_set k t r
  end.

Fixpoint text_dict_get (k : string) (d : list (string * text))
  : option text :=
  match d with
  | [] => None
  | (k', t) :: r => if String.eqb k k' then Some t else text_dict_get k r
  end.

(** The loop of [AnalyzeCertificate._load_extension_values] over
    [vars(extension.value).items()], started with the empty [_values]
    dictionary the method has just stored; the result is that dictionary. *)
Fixpoint load_values_loop (name : string) (items : list (string * attribute))
    (_values : list (string * text)) : list (string * text) :=
  match items with
  | [] => _values
  | (key, value) :: r =>
      if negb (check_supported_keys key name)
      then load_values_loop name r _values
      else load_values_loop name r (text_dict_set key (render value) _values)
  end.

Definition _load_extension_values (name : string)
    (items : list (string * attribute)) : list (string * text) :=
  load_values_loop name items [].

(** Reading a rendering back; used to tell renderings apart.  A digit is
    worth its position among the sixteen digits. *)
Fixpoint position (a : ascii) (digits : string) : option N :=
  match digits with
  | EmptyString => None
  | String c r =>
      if Ascii.eqb a c then Some 0%N
      else option_map N.succ (position a r)
  end.

Definition unhex_digit (a : ascii) : option N :=
  position a "0123456789ABCDEF".

Definition unhex_pair (hi lo : ascii) : option byte :=
  match unhex_digit hi, unhex_digit lo with
  | Some h, Some l => Byte.of_N (16 * h + l)
  | _, _ => None
  end.

Fixpoint hex_to_bytes (s : string) : option (list byte) :=
  match s with
  | EmptyString => Some []
  | String hi (String lo rest) =>
      match unhex_pair hi lo with
      | None => None
      | Some b =>
          match rest with
          | EmptyString => Some [b]
          | String ":"%char rest' =>
              match hex_to_bytes rest' with
              | Some bs => Some (b :: bs)
              | None => None
              end
          | _ => None
          end
      end
  | _ => None
  end.

Definition is_hex_or_colon (a : ascii) : bool :=
  match unhex_digit a with
  | Some _ => true
  | None => Ascii.eqb a ":"
  end.

End Certs.

(** ** api.py: reading the server's version *)

Module ApiCalls.

(** [s.split('.')[0]]: the text before the first ['.'] (all of [s] when it
    has none). *)
Fixpoint first_component (s : string) : string :=
  match s with
  | EmptyString => EmptyString
  | String c r =>
      if Ascii.eqb c "." then EmptyString else String c (first_component r)
  end.

Section Builtins.
(** Python's [int] on a string (the integer, or the exception it raises) and
    Python's [str] on a list or a dictionary. *)
Variable py_int : string -> exn + Z.
Variable py_repr : value -> string.

(** [str(v)] *)
Definition py_str (v : value) : string :=
  match v with
  | VNone => "None"
  | VBool true => "True"
  | VBool false => "False"
  | VInt n => str_int n
  | VStr s => s
  | _ => py_repr v
  end.

(** [parse_version] on the values of the model: none of them is a tuple, so
    the result is [int(str(version).split('.')[0])]. *)
Definition parse_version (version : value) : exn + Z :=
  py_int (first_component (py_str version)).

Context {World : Type}.
Variable respond : remote World.
Variable env : environment.

(** [Api.get_server_version(client)] *)
Definition get_server_version : M (store World) Z :=
  info_ <- perform respond info ;;
  version <- getitem info_ "version" ;;
  number <- value_getitem version "number" ;;
  match parse_version number with
  | inl e => raise e
  | inr n => ret n
  end.

(** [Api.check_version_compatibility(client)]: lines 125-126 read the two
    versions, the rest is [Api.check_version_compatibility] above. *)
Definition check_version_compatibility : M (store World) Api.report :=
  let client_ver := ApiClient.get_client_version env in
  server_ver <- get_server_version ;;
  match Api.check_version_compatibility client_ver server_ver with
  | inl e => raise e
  | inr r => ret r
  end.

End Builtins.

End ApiCalls.

Arguments ApiCalls.parse_version : simpl never.

(** ** More tactics *)

(** Find the sequence a trace is equal to. *)
Ltac pick_shape :=
  cbn [list_call get_call delete_call put_call];
  rewrite ?andb_false_r, ?andb_true_r;
  repeat match goal with
         | H : String.eqb _ _ = _ |- _ => rewrite H
         end;
  repeat (first [left; reflexivity | right]).

Ltac unfold_check :=
  unfold ApiCalls.check_version_compatibility, ApiCalls.get_server_version,
    ApiClient.get_client_version,
    bind, ret, raise, perform, getitem, value_getitem.

Ltac run_check := repeat (progress (unfold_check; cbn)).

(** Close the side conditions of an instance by evaluation. *)
Ltac discharge := solve [split; reflexivity | reflexivity | discriminate].

(** * Properties *)

(** ** The version pairing *)

(** C2 as stated fails: with equal major versions the report carries the
    message "... is fully compatible with ...", not an empty one. *)
Lemma check_equal_versions_message_not_empty :
  ~ (exists r, Api.check_version_compatibility 8 8 = inr r
               /\ Api.compatible r = true /\ Api.message r = "").
Proof.
  intros [r [H [_ Hm]]]. cbv in H. inversion H; subst r. discriminate Hm.
Qed.

(** C2 (amended): the pairing matrix.  Client 9 with server 8 raises
    [ApiError]; client 8 with server 9 is compatible with an upgrade advisory;
    equal versions are compatible and the message says "fully compatible";
    client 7 with server 9 is compatible with the message "compatibility not
    verified". *)
Theorem version_pairing_matrix :
  Api.check_version_compatibility 9 8 =
    inl (ApiError
      ("Incompatible versions: elasticsearch-py 9.x cannot connect to "
       ++ "Elasticsearch 8.x. Install 'elasticsearch>=8,<9' or upgrade "
       ++ "your Elasticsearch server to 9.x first."))
  /\ Api.check_version_compatibility 8 9 =
    inr (Api.mk_report 8 9 true
      ("elasticsearch-py 8.x is forward-compatible with Elasticsearch "
       ++ "9.x. Consider upgrading to 'elasticsearch>=9,<10' for full "
       ++ "ES 9.x feature support."))
  /\ Api.check_version_compatibility 8 8 =
    inr (Api.mk_report 8 8 true
      "elasticsearch-py 8.x is fully compatible with Elasticsearch 8.x.")
  /\ Api.check_version_compatibility 9 9 =
    inr (Api.mk_report 9 9 true
      "elasticsearch-py 9.x is fully compatible with Elasticsearch 9.x.")
  /\ Api.check_version_compatibility 7 9 =
    inr (Api.mk_report 7 9 true
      ("elasticsearch-py 7.x with Elasticsearch 9.x - "
       ++ "compatibility not verified.")).
Proof. repeat split. Qed.

(** C10: the check raises for the pair (9, 8) and returns a report for every
    other pair; a returned report has [compatible = true], a non-empty message
    and the two versions it was given. *)
Theorem returned_report_is_compatible (client_ver server_ver : Z) :
  ((client_ver, server_ver) = (9, 8) ->
   exists m,
     Api.check_version_compatibility client_ver server_ver
     = inl (ApiError m))
  /\ ((client_ver, server_ver) <> (9, 8) ->
      exists r, Api.check_version_compatibility client_ver server_ver = inr r)
  /\ (forall r,
        Api.check_version_compatibility client_ver server_ver = inr r ->
        Api.compatible r = true
        /\ Api.message r <> ""
        /\ Api.client_version r = client_ver
        /\ Api.server_version r = server_ver).
Proof.
  split.
  { intros H. inversion H; subst. eexists. reflexivity. }
  unfold Api.check_version_compatibility.
  split.
  - intros Hne.
    destruct ((client_ver =? 9) && (server_ver =? 8)) eqn:E.
    + apply andb_true_iff in E. destruct E as [E1 E2].
      apply Z.eqb_eq in E1, E2. subst. contradiction Hne. reflexivity.
    + destruct ((client_ver =? 8) && (server_ver =? 9));
        [|destruct (client_ver =? server_ver)]; eexists; reflexivity.
  - intros r H.
    destruct ((client_ver =? 9) && (server_ver =? 8)); [discriminate|].
    destruct ((client_ver =? 8) && (server_ver =? 9));
      [|destruct (client_ver =? server_ver)];
      inversion H; subst r; cbn [Api.compatible Api.message
        Api.client_version Api.server_version];
      (repeat split; simpl; discriminate).
Qed.

Lemma returned_report_is_compatible_witness :
  (exists r, Api.check_version_compatibility 7 9 = inr r)
  /\ Api.compatible
       (Api.mk_report 7 9 true
          "elasticsearch-py 7.x with Elasticsearch 9.x - compatibility not verified.")
     = true.
Proof.
  destruct (returned_report_is_compatible 7 9) as [_ [Hex Hall]].
  split.
  - apply Hex. intros H. inversion H.
  - apply (Hall _ eq_refl).
Defined.

(** ** Deleting *)

(** C5: with [state = absent] and the name not among the keys of the listing,
    the invocation returns [changed = false] after the listing call alone; no
    delete call is issued. *)
Theorem absent_name_is_noop {World} (respond : remote World)
    (env : environment) (x : resource) (w w1 : World) (listing : dict) :
  client_ok env ->
  state_of x = "absent" ->
  respond (list_call x) w = (inr listing, w1) ->
  dict_mem (name_of x) listing = false ->
  fst (invoke respond env x w) = Done (mk_result false None None)
  /\ trace (snd (invoke respond env x w)) = [list_call x]
  /\ ~ In (delete_call x) (trace (snd (invoke respond env x w))).
Proof.
  intros [Hlib Hctor] Hst Hl Hm.
  assert (E : invoke respond env x w =
              (Done (mk_result false None None),
               mk_store w1 [list_call x] (mk_result false None None))).
  { destruct x as [r|u]; cbn [state_of list_call name_of] in *;
      follow; reflexivity. }
  rewrite E. cbn [fst snd trace]. repeat split.
  intros [H|[]]. destruct x; discriminate H.
Qed.

Lemma absent_name_is_noop_witness :
  fst (invoke scripted env9 (r1 "absent" false false)
         [inr [("other", VDict [])]])
  = Done (mk_result false None None).
Proof.
  refine (proj1 (absent_name_is_noop scripted env9 (r1 "absent" false false)
                   _ [] [("other", VDict [])] _ _ _ _));
    [split; reflexivity | reflexivity | reflexivity | reflexivity].
Defined.

(** C6: with [state = absent], outside check mode and the name in the listing,
    the delete call is issued; a response with [found = False] leaves
    [changed = false] and the invocation ends normally, a response with
    [found = True] gives [changed = true] and "<name> has been deleted". *)
Theorem delete_reports_found {World} (respond : remote World)
    (env : environment) (x : resource) (w w1 w2 : World)
    (listing res : dict) (found : bool) :
  client_ok env ->
  state_of x = "absent" ->
  check_mode (module_of x) = false ->
  respond (list_call x) w = (inr listing, w1) ->
  dict_mem (name_of x) listing = true ->
  respond (delete_call x) w1 = (inr res, w2) ->
  dict_get "found" res = Some (VBool found) ->
  fst (invoke respond env x w) =
    Done (if found
          then mk_result true (Some (name_of x ++ " has been deleted")) None
          else mk_result false None None)
  /\ trace (snd (invoke respond env x w)) = [list_call x; delete_call x].
Proof.
  intros [Hlib Hctor] Hst Hcm Hl Hm Hd Hf.
  destruct x as [r|u];
    cbn [state_of list_call name_of module_of delete_call] in *;
    follow; destruct found; cbn; split; reflexivity.
Qed.

Lemma delete_reports_found_witness :
  fst (invoke scripted env9 (u1 "absent" false false "always")
         [inr [("u1", VDict [])]; inr [("found", VBool false)]])
  = Done (mk_result false None None).
Proof.
  refine (proj1 (delete_reports_found scripted env9
                   (u1 "absent" false false "always")
                   _ [inr [("found", VBool false)]] []
                   [("u1", VDict [])] [("found", VBool false)] false
                   _ _ _ _ _ _ _));
    [split; reflexivity | reflexivity | reflexivity | reflexivity
    | reflexivity | reflexivity | reflexivity].
Defined.

(** ** Creating and updating *)

Lemma created_flag_role (r : Role.self) (res : dict) (c : value) :
  created_flag (RoleOf r) res = Some c ->
  exists d, dict_get "role" res = Some (VDict d)
            /\ dict_get "created" d = Some c.
Proof.
  unfold created_flag.
  destruct (dict_get "role" res) as [[| | | | |d]|]; try discriminate.
  intros H. exists d. split; [reflexivity|exact H].
Qed.

(** C7: outside check mode, with [state = present], the name absent from the
    listing (so no pre-snapshot) and a put response whose [created] is not
    [True], the invocation returns [changed = false] with neither message nor
    diff, and the put call is the last call: nothing is fetched afterwards. *)
Theorem replaced_without_snapshot_is_unchanged {World}
    (respond : remote World) (env : environment) (x : resource)
    (w w1 w2 : World) (listing res : dict) (created : value) :
  client_ok env ->
  state_of x = "present" ->
  check_mode (module_of x) = false ->
  respond (list_call x) w = (inr listing, w1) ->
  dict_mem (name_of x) listing = false ->
  respond (put_call x false) w1 = (inr res, w2) ->
  created_flag x res = Some created ->
  is_True created = false ->
  fst (invoke respond env x w) = Done (mk_result false None None)
  /\ trace (snd (invoke respond env x w)) = [list_call x; put_call x false].
Proof.
  intros [Hlib Hctor] Hst Hcm Hl Hm Hp Hc Ht.
  destruct x as [r|u];
    cbn [state_of list_call name_of module_of put_call] in *.
  - apply created_flag_role in Hc. destruct Hc as [d [Hr Hc]].
    follow. split; reflexivity.
  - cbn [created_flag] in Hc. rewrite andb_false_r in Hp.
    follow. split; reflexivity.
Qed.

Lemma replaced_without_snapshot_is_unchanged_witness :
  fst (invoke scripted env9 (r1 "present" false true)
         [inr []; inr [("role", VDict [("created", VBool false)])]])
  = Done (mk_result false None None).
Proof.
  refine (proj1 (replaced_without_snapshot_is_unchanged scripted env9
                   (r1 "present" false true)
                   _ [inr [("role", VDict [("created", VBool false)])]] []
                   [] [("role", VDict [("created", VBool false)])]
                   (VBool false) _ _ _ _ _ _ _ _));
    [split; reflexivity | reflexivity | reflexivity | reflexivity
    | reflexivity | reflexivity | reflexivity | reflexivity].
Defined.

(** The password entry of the keyword arguments. *)
Lemma put_kwargs_password (u : User.self) (p : option string) :
  dict_get "password" (User.put_kwargs u p) = option_map VStr p.
Proof. destruct p; reflexivity. Qed.

(** C3: for a user with [state = present], outside check mode, once the
    listing (and the pre-fetch, when the name is listed) has succeeded, exactly
    one [put_user] call is issued.  With policy [on_create] and the name in the
    listing its keyword arguments have no [password] key; with policy [always],
    or the name not in the listing, they bind [password] to the configured
    password. *)
Theorem password_sent_by_policy {World} (respond : remote World)
    (env : environment) (u : User.self) (w w1 : World) (listing : dict) :
  client_ok env ->
  User.state u = "present" ->
  check_mode (User.module u) = false ->
  respond (security_get_user None) w = (inr listing, w1) ->
  (dict_mem (User.user_name u) listing = true ->
   exists pre w2,
     respond (security_get_user (Some (User.user_name u))) w1
     = (inr pre, w2)) ->
  exists kwargs,
    put_user_payloads (trace (snd (invoke respond env (UserOf u) w)))
    = [kwargs]
    /\ (User.update_password u = "on_create"
        /\ dict_mem (User.user_name u) listing = true ->
        dict_mem "password" kwargs = false)
    /\ (User.update_password u = "always"
        \/ dict_mem (User.user_name u) listing = false ->
        dict_get "password" kwargs = Some (VStr (User.password u))).
Proof.
  intros [Hlib Hctor] Hst Hcm Hl Hpre.
  exists (User.put_kwargs u
            (if String.eqb (User.update_password u) "on_create"
                && dict_mem (User.user_name u) listing
             then None else Some (User.password u))).
  split; [|split].
  - destruct (dict_mem (User.user_name u) listing) eqn:Hm.
    + destruct (Hpre eq_refl) as [pre [w2 Hg]].
      follow. explore; reflexivity.
    + follow. explore; reflexivity.
  - intros [Hp Hm]. rewrite Hp, Hm. reflexivity.
  - unfold dict_mem. rewrite put_kwargs_password.
    intros [Hp|Hm]; [rewrite Hp|rewrite Hm, andb_false_r]; reflexivity.
Qed.

Lemma password_sent_by_policy_witness :
  exists kwargs,
    put_user_payloads
      (trace (snd (invoke scripted env9 (u1 "present" false false "on_create")
                     [inr [("u1", VDict [])]; inr [("u1", VDict [])];
                      inr [("created", VBool false)];
                      inr [("u1", VDict [])]])))
    = [kwargs]
    /\ dict_mem "password" kwargs = false.
Proof.
  destruct (password_sent_by_policy scripted env9
              (User.mk_self (mk_module false false) "u1" (Some "User One")
                 "p1" None ["a"] true "present" "on_create")
              [inr [("u1", VDict [])]; inr [("u1", VDict [])];
               inr [("created", VBool false)]; inr [("u1", VDict [])]]
              [inr [("u1", VDict [])]; inr [("created", VBool false)];
               inr [("u1", VDict [])]]
              [("u1", VDict [])]
              (conj eq_refl eq_refl) eq_refl eq_refl eq_refl
              (fun _ => ex_intro _ [("u1", VDict [])]
                          (ex_intro _ [inr [("created", VBool false)];
                                       inr [("u1", VDict [])]] eq_refl)))
    as [kwargs [Hp [Hon _]]].
  exists kwargs. split; [exact Hp|].
  apply Hon. split; reflexivity.
Defined.

(** ** Check mode *)

Lemma dry_run_never_mutates {World} (respond : remote World)
    (env : environment) (x : resource) (w : World) :
  check_mode (module_of x) = true ->
  forallb (fun c => negb (mutating c))
          (trace (snd (invoke respond env x w))) = true.
Proof.
  intros Hcm. destruct x as [r|u]; cbn [module_of] in Hcm;
    explore; reflexivity.
Qed.

(** C1: in check mode no put and no delete call is issued, whatever the
    desired state and whatever the cluster answers.  The listing is still
    read, and the snapshot too when the name is listed: a failing listing ends
    the run through [fail_json], a failing pre-fetch propagates its exception.
    When the reads succeed the result is [changed = true] with "<name> would
    be deleted" ([absent], name listed), "<name> would be created" ([present],
    name not listed) or "<name> would be updated" ([present], name listed). *)
Theorem dry_run_predicts_without_writing {World} (respond : remote World)
    (env : environment) (x : resource) (w : World) :
  check_mode (module_of x) = true ->
  let run := invoke respond env x w in
  forallb (fun c => negb (mutating c)) (trace (snd run)) = true
  /\ (client_ok env ->
      (forall listing w1,
          respond (list_call x) w = (inr listing, w1) ->
          (state_of x = "absent" ->
           dict_mem (name_of x) listing = true ->
           fst run = Done (mk_result true
                             (Some (name_of x ++ " would be deleted")) None)
           /\ trace (snd run) = [list_call x])
          /\ (state_of x = "present" ->
              dict_mem (name_of x) listing = false ->
              fst run = Done (mk_result true
                                (Some (name_of x ++ " would be created")) None)
              /\ trace (snd run) = [list_call x])
          /\ (state_of x = "present" ->
              dict_mem (name_of x) listing = true ->
              forall pre w2,
                respond (get_call x) w1 = (inr pre, w2) ->
                fst run = Done (mk_result true
                                  (Some (name_of x ++ " would be updated"))
                                  None)
                /\ trace (snd run) = [list_call x; get_call x])
          /\ (state_of x = "present" ->
              dict_mem (name_of x) listing = true ->
              forall e w2,
                respond (get_call x) w1 = (inl e, w2) ->
                fst run = Raised e
                /\ trace (snd run) = [list_call x; get_call x]))
      /\ (forall e w1,
             respond (list_call x) w = (inl e, w1) ->
             state_of x = "absent" \/ state_of x = "present" ->
             fst run = FailJson ("Failed to get " ++ plural x ++ ": "
                                 ++ str_exn e)
             /\ trace (snd run) = [list_call x])).
Proof.
  intros Hcm run. subst run.
  split; [apply dry_run_never_mutates; exact Hcm|].
  intros [Hlib Hctor]. split.
  - intros listing w1 Hl. split; [|split; [|split]]; intros Hst Hm;
      try intros y w2 Hg;
      destruct x as [r|u];
      cbn [state_of list_call name_of module_of get_call] in *;
      follow; split; reflexivity.
  - intros e w1 Hl [Hst|Hst]; destruct x as [r|u];
      cbn [state_of list_call name_of module_of plural] in *;
      follow; split; reflexivity.
Qed.

Lemma dry_run_predicts_without_writing_witness :
  forallb (fun c => negb (mutating c))
    (trace (snd (invoke scripted env9 (r1 "present" true true)
                   [inr [("r1", VDict [])]; inr [("r1", VDict [])]])))
  = true
  /\ fst (invoke scripted env9 (r1 "present" true true)
            [inr [("r1", VDict [])]; inr [("r1", VDict [])]])
     = Done (mk_result true (Some "r1 would be updated") None).
Proof.
  destruct (dry_run_predicts_without_writing scripted env9
              (r1 "present" true true)
              [inr [("r1", VDict [])]; inr [("r1", VDict [])]] eq_refl)
    as [Hro Hpred].
  split; [exact Hro|].
  destruct (Hpred (conj eq_refl eq_refl)) as [Hok _].
  destruct (Hok [("r1", VDict [])] [inr [("r1", VDict [])]] eq_refl)
    as [_ [_ [Hupd _]]].
  exact (proj1 (Hupd eq_refl eq_refl [("r1", VDict [])] [] eq_refl)).
Defined.

(** ** Python equality is reflexive on these values *)

Lemma dict_mem_in (d : dict) (k : string) (v : value) :
  In (k, v) d -> dict_mem k d = true.
Proof.
  unfold dict_mem. induction d as [|[k' v'] r IH]; intros Hin.
  - destruct Hin.
  - cbn. destruct (String.eqb k k') eqn:E; [reflexivity|].
    destruct Hin as [Heq|Hin].
    + inversion Heq; subst. rewrite String.eqb_refl in E. discriminate.
    + apply IH, Hin.
Qed.

Lemma dict_keys_bound (d : dict) :
  forallb (fun kv => dict_mem (fst kv) d) d = true.
Proof.
  apply forallb_forall. intros [k v] Hin. cbn. eapply dict_mem_in, Hin.
Qed.

Lemma list_eq_refl (l : list value) :
  Forall (fun v => py_eq v v = true) l -> list_eq py_eq l l = true.
Proof.
  induction 1 as [|v l Hv _ IH]; cbn; [reflexivity|].
  rewrite Hv, IH. reflexivity.
Qed.

Lemma dict_sub_refl (e : dict) (d : dict) :
  Forall (fun kv => py_eq (snd kv) (snd kv) = true) d ->
  forall seen,
    (forall k, str_mem k seen = false -> dict_get k e = dict_get k d) ->
    dict_sub py_eq e seen d = true.
Proof.
  induction 1 as [|[k v] r Hv _ IH]; intros seen Hseen; cbn;
    [reflexivity|].
  apply andb_true_iff. split.
  - destruct (str_mem k seen) eqn:E; [reflexivity|].
    rewrite (Hseen k E). cbn. rewrite String.eqb_refl. exact Hv.
  - apply IH. intros k' Hk'. cbn in Hk'.
    apply orb_false_iff in Hk'. destruct Hk' as [Hne Hk'].
    rewrite (Hseen k' Hk'). cbn. rewrite Hne. reflexivity.
Qed.

Lemma py_eq_refl (v : value) : py_eq v v = true.
Proof.
  induction v as [|b|n|s|l IH|d IH] using value_induction; cbn.
  - reflexivity.
  - apply Bool.eqb_reflx.
  - apply Z.eqb_refl.
  - apply String.eqb_refl.
  - apply list_eq_refl, IH.
  - rewrite dict_keys_bound, andb_true_r.
    apply dict_sub_refl; [exact IH|reflexivity].
Qed.

(** ** What decides [changed] for a user *)

(** Two dictionaries with the five compared keys are equal when the five
    values are. *)
Lemma py_eq_five_fields (a1 a2 a3 a4 a5 b1 b2 b3 b4 b5 : value) :
  py_eq (VDict [("roles", a1); ("full_name", a2); ("email", a3);
                ("enabled", a4); ("metadata", a5)])
        (VDict [("roles", b1); ("full_name", b2); ("email", b3);
                ("enabled", b4); ("metadata", b5)])
  = py_eq a1 b1 && py_eq a2 b2 && py_eq a3 b3 && py_eq a4 b4 && py_eq a5 b5.
Proof.
  cbn [py_eq dict_sub str_mem dict_get forallb dict_mem fst].
  cbn [String.eqb Ascii.eqb Bool.eqb orb andb].
  unfold dict_mem. cbn [dict_get String.eqb Ascii.eqb Bool.eqb andb].
  rewrite !andb_true_r.
  destruct (py_eq a1 b1), (py_eq a2 b2), (py_eq a3 b3), (py_eq a4 b4),
    (py_eq a5 b5); reflexivity.
Qed.

(** C4: when a user reconciliation reaches the comparison (name listed,
    pre-fetch done, put answered with [created] other than [True], post-fetch
    done, both entries dictionaries), [changed] is true exactly when the two
    entries differ, as read by [.get], at one of [roles], [full_name],
    [email], [enabled], [metadata].  Hence entries that agree with the fetched
    ones on these five keys give the same flag, two entries that agree with
    each other on them, whatever else differs (a password hash, say), give
    [changed = false], and a difference at any one of the five gives
    [changed = true]. *)
Theorem user_change_is_decided_by_compared_fields {World}
    (respond : remote World) (env : environment) (u : User.self)
    (w w1 w2 w3 w4 : World) (listing pre res post : dict) (created : value)
    (pre_data post_data : dict) :
  client_ok env ->
  User.state u = "present" ->
  check_mode (User.module u) = false ->
  respond (security_get_user None) w = (inr listing, w1) ->
  dict_mem (User.user_name u) listing = true ->
  respond (security_get_user (Some (User.user_name u))) w1 = (inr pre, w2) ->
  respond (put_call (UserOf u) true) w2 = (inr res, w3) ->
  dict_get "created" res = Some created ->
  is_True created = false ->
  respond (security_get_user (Some (User.user_name u))) w3 = (inr post, w4) ->
  dict_get_default (User.user_name u) pre (VDict []) = VDict pre_data ->
  dict_get_default (User.user_name u) post (VDict []) = VDict post_data ->
  let field := fun (k : string) (d : dict) => dict_get_default k d VNone in
  let same := fun (d e : dict) =>
    py_eq (field "roles" d) (field "roles" e)
    && py_eq (field "full_name" d) (field "full_name" e)
    && py_eq (field "email" d) (field "email" e)
    && py_eq (field "enabled" d) (field "enabled" e)
    && py_eq (field "metadata" d) (field "metadata" e) in
  let fields := ["roles"; "full_name"; "email"; "enabled"; "metadata"] in
  exists r,
    fst (invoke respond env (UserOf u) w) = Done r
    /\ changed r = negb (same pre_data post_data)
    /\ (forall pre_data' post_data',
          (forall k, In k fields -> field k pre_data = field k pre_data') ->
          (forall k, In k fields -> field k post_data = field k post_data') ->
          changed r = negb (same pre_data' post_data'))
    /\ ((forall k, In k fields -> field k pre_data = field k post_data) ->
        changed r = false)
    /\ (forall k, In k fields ->
                  py_eq (field k pre_data) (field k post_data) = false ->
                  changed r = true).
Proof.
  intros [Hlib Hctor] Hst Hcm Hl Hm Hg Hp Hc Ht Hg' Hpre Hpost
         field same fields.
  cbn [put_call] in Hp.
  assert (E : exists r, fst (invoke respond env (UserOf u) w) = Done r
                        /\ changed r = negb (same pre_data post_data)).
  { rewrite andb_true_r in Hp. follow.
    unfold py_ne. rewrite py_eq_five_fields.
    change (negb _) with (negb (same pre_data post_data)).
    destruct (same pre_data post_data);
      [|destruct (_diff (User.module u))]; cbn;
      eexists; split; reflexivity. }
  destruct E as [r [Hr Hch]]. exists r.
  split; [exact Hr|]. split; [exact Hch|]. split; [|split].
  - intros pre_data' post_data' Hpre' Hpost'. rewrite Hch. unfold same.
    rewrite !Hpre', !Hpost' by (cbn; auto 10). reflexivity.
  - intros Hsame. rewrite Hch. unfold same.
    rewrite !Hsame by (cbn; auto 10). rewrite !py_eq_refl. reflexivity.
  - intros k Hk Hne. rewrite Hch. unfold same.
    cbn in Hk.
    repeat (destruct Hk as [Hk|Hk]; [subst k; rewrite Hne;
                                     rewrite ?andb_false_r; reflexivity|]).
    destruct Hk.
Qed.

Lemma user_change_is_decided_by_compared_fields_witness :
  exists r,
    fst (invoke scripted env9 (u1 "present" false false "on_create")
           [inr [("u1", VDict [])];
            inr [("u1", VDict [("roles", VList [VStr "a"]);
                               ("password_hash", VStr "h1")])];
            inr [("created", VBool false)];
            inr [("u1", VDict [("roles", VList [VStr "a"]);
                               ("password_hash", VStr "h2")])]])
    = Done r
    /\ changed r = false.
Proof.
  destruct (user_change_is_decided_by_compared_fields scripted env9
              (User.mk_self (mk_module false false) "u1" (Some "User One")
                 "p1" None ["a"] true "present" "on_create")
              [inr [("u1", VDict [])];
               inr [("u1", VDict [("roles", VList [VStr "a"]);
                                  ("password_hash", VStr "h1")])];
               inr [("created", VBool false)];
               inr [("u1", VDict [("roles", VList [VStr "a"]);
                                  ("password_hash", VStr "h2")])]]
              [inr [("u1", VDict [("roles", VList [VStr "a"]);
                                  ("password_hash", VStr "h1")])];
               inr [("created", VBool false)];
               inr [("u1", VDict [("roles", VList [VStr "a"]);
                                  ("password_hash", VStr "h2")])]]
              [inr [("created", VBool false)];
               inr [("u1", VDict [("roles", VList [VStr "a"]);
                                  ("password_hash", VStr "h2")])]]
              [inr [("u1", VDict [("roles", VList [VStr "a"]);
                                  ("password_hash", VStr "h2")])]]
              []
              [("u1", VDict [])]
              [("u1", VDict [("roles", VList [VStr "a"]);
                             ("password_hash", VStr "h1")])]
              [("created", VBool false)]
              [("u1", VDict [("roles", VList [VStr "a"]);
                             ("password_hash", VStr "h2")])]
              (VBool false)
              [("roles", VList [VStr "a"]); ("password_hash", VStr "h1")]
              [("roles", VList [VStr "a"]); ("password_hash", VStr "h2")]
              (conj eq_refl eq_refl) eq_refl eq_refl eq_refl eq_refl eq_refl
              eq_refl eq_refl eq_refl eq_refl eq_refl eq_refl)
    as [r [Hr [_ [_ [Hsame _]]]]].
  exists r. split; [exact Hr|].
  apply Hsame. intros k Hk.
  repeat (destruct Hk as [Hk|Hk]; [subst k; reflexivity|]).
  destruct Hk.
Defined.


(** ** Reporting an update *)

Lemma diff_only_with_change {World} (respond : remote World)
    (env : environment) (x : resource) (w : World) :
  match fst (invoke respond env x w) with
  | Done r => diff r <> None -> _diff (module_of x) = true /\ changed r = true
  | _ => True
  end.
Proof.
  destruct x as [r|u]; cbn [module_of];
    explore; try exact I; intros Hd; split; congruence.
Qed.

(** C8 as stated fails for users: the diff of an update shows the user's
    whole entry, here with its [username], not the projection on the five
    compared keys. *)
Lemma user_diff_shows_whole_entry :
  fst (invoke scripted env9 (u1 "present" false true "always")
         u1_update_script)
  = Done (mk_result true (Some "u1 has been updated")
            (Some (mk_diff (Str (VDict (u1_entry "a")))
                           (Str (VDict (u1_entry "b"))))))
  /\ fst (invoke scripted env9 (u1 "present" false true "always")
            u1_update_script)
     <> Done (mk_result true (Some "u1 has been updated")
                (Some (mk_diff
                         (Str (VDict (comparable_projection (u1_entry "a"))))
                         (Str (VDict (comparable_projection (u1_entry "b"))))))).
Proof.
  split; [reflexivity|]. intros H. cbv in H. discriminate H.
Qed.

(** C8 (amended): outside check mode, when the comparison is reached (name
    listed, pre-fetch done, put answered with [created] other than [True],
    post-fetch done) and the compared values differ, the result is
    [changed = true] with "<name> has been updated"; when diff output was
    requested the diff is [{before: str(pre), after: str(post)}] where, for a
    role, [pre] and [post] are the two response bodies and, for a user, the
    user's whole entries in them, not their projections.  In every invocation
    a result carries a diff only if diff output was requested and
    [changed = true]. *)
Theorem update_is_reported_with_diff {World} (respond : remote World)
    (env : environment) (x : resource) (w : World) :
  (forall (w1 w2 w3 w4 : World) (listing pre res post : dict)
          (created a b : value),
      client_ok env ->
      state_of x = "present" ->
      check_mode (module_of x) = false ->
      respond (list_call x) w = (inr listing, w1) ->
      dict_mem (name_of x) listing = true ->
      respond (get_call x) w1 = (inr pre, w2) ->
      respond (put_call x true) w2 = (inr res, w3) ->
      created_flag x res = Some created ->
      is_True created = false ->
      respond (get_call x) w3 = (inr post, w4) ->
      compared x pre = Some a ->
      compared x post = Some b ->
      py_eq a b = false ->
      fst (invoke respond env x w) =
        Done (mk_result true (Some (name_of x ++ " has been updated"))
                (if _diff (module_of x)
                 then Some (mk_diff (Str (shown x pre)) (Str (shown x post)))
                 else None)))
  /\ (forall r,
         fst (invoke respond env x w) = Done r ->
         diff r <> None ->
         _diff (module_of x) = true /\ changed r = true).
Proof.
  split.
  - intros w1 w2 w3 w4 listing pre res post created a b
           [Hlib Hctor] Hst Hcm Hl Hm Hg Hp Hc Ht Hg' Ha Hb Hne.
    destruct x as [r|u];
      cbn [state_of list_call name_of module_of get_call put_call
           compared shown] in *.
    + apply created_flag_role in Hc. destruct Hc as [d [Hr Hc]].
      inversion Ha; subst a. inversion Hb; subst b.
      follow. unfold py_ne. rewrite Hne. cbn.
      destruct (_diff (Role.module r)); reflexivity.
    + cbn [created_flag] in Hc. rewrite andb_true_r in Hp.
      destruct (dict_get_default (User.user_name u) pre (VDict []))
        as [| | | | |pre_data] eqn:Hpre; try discriminate Ha.
      destruct (dict_get_default (User.user_name u) post (VDict []))
        as [| | | | |post_data] eqn:Hpost; try discriminate Hb.
      inversion Ha; subst a. inversion Hb; subst b.
      follow.
      change (py_ne _ _)
        with (negb (py_eq (VDict (comparable_projection pre_data))
                          (VDict (comparable_projection post_data)))).
      rewrite Hne. cbn.
      destruct (_diff (User.module u)); reflexivity.
  - intros r Hr. pose proof (diff_only_with_change respond env x w) as H.
    rewrite Hr in H. exact H.
Qed.

Lemma update_is_reported_with_diff_witness :
  fst (invoke scripted env9 (u1 "present" false true "always")
         u1_update_script)
  = Done (mk_result true (Some "u1 has been updated")
            (Some (mk_diff (Str (VDict (u1_entry "a")))
                           (Str (VDict (u1_entry "b")))))).
Proof.
  refine (proj1 (update_is_reported_with_diff scripted env9
                   (u1 "present" false true "always") u1_update_script)
            (tl u1_update_script) (tl (tl u1_update_script))
            (tl (tl (tl u1_update_script))) []
            [("u1", VDict (u1_entry "a"))] [("u1", VDict (u1_entry "a"))]
            [("created", VBool false)] [("u1", VDict (u1_entry "b"))]
            (VBool false)
            (VDict (comparable_projection (u1_entry "a")))
            (VDict (comparable_projection (u1_entry "b")))
            _ _ _ _ _ _ _ _ _ _ _ _ _);
    solve [split; reflexivity | reflexivity].
Defined.

(** ** The version check and the reconcilers *)

Lemma never_calls_info {World} (respond : remote World)
    (env : environment) (x : resource) (w : World) :
  forallb (fun c => negb (is_info c))
          (trace (snd (invoke respond env x w))) = true.
Proof.
  destruct x as [r|u]; explore; reflexivity.
Qed.

(** C9 as stated fails: with client 9 and a cluster of version 8, the pair
    [check_version_compatibility] rejects, creating a role goes through; the
    trace holds the listing and the put call and no [info] call. *)
Lemma role_created_without_version_check :
  (exists m,
      Api.check_version_compatibility (ES_CLIENT_VERSION env9) 8
      = inl (ApiError m))
  /\ invoke es8_cluster env9 (r1 "present" false false) tt
     = (Done (mk_result true (Some "r1 has been created") None),
        mk_store tt
          [security_get_role None; put_call (r1 "present" false false) false]
          (mk_result true (Some "r1 has been created") None))
  /\ ~ In info (trace (snd (invoke es8_cluster env9
                              (r1 "present" false false) tt))).
Proof.
  split; [eexists; reflexivity|]. split; [reflexivity|].
  cbn. intros [H|[H|[]]]; discriminate H.
Qed.

(** C9 (amended): no invocation runs the version check.  No [info] call is
    ever issued, and the run is the same whatever the client's major version.
    The only step before the handlers is the construction of the client: when
    the library is missing the invocation ends through [fail_json] before any
    call, and otherwise the first call, if any, is the listing. *)
Theorem no_version_check_before_reconciling {World} (respond : remote World)
    (env : environment) (x : resource) (w : World) :
  forallb (fun c => negb (is_info c))
          (trace (snd (invoke respond env x w))) = true
  /\ (forall v,
         invoke respond
           (mk_env (HAS_ELASTICSEARCH env) v (Elasticsearch_raises env)) x w
         = invoke respond env x w)
  /\ (HAS_ELASTICSEARCH env = false ->
      exists m, invoke respond env x w
                = (FailJson m, mk_store w [] (mk_result false None None)))
  /\ (client_ok env ->
      state_of x = "absent" \/ state_of x = "present" ->
      hd_error (trace (snd (invoke respond env x w))) = Some (list_call x)).
Proof.
  split; [apply never_calls_info|]. split; [|split].
  - intros v. destruct env; destruct x; reflexivity.
  - intros Hlib. destruct x; follow; eexists; reflexivity.
  - intros [Hlib Hctor] [Hst|Hst]; destruct x as [r|u];
      cbn [state_of list_call] in *; follow;
      match goal with
      | |- context [respond ?c w] => destruct (respond c w) as [[e|d] w1]
      end; cbn.
    all: try reflexivity.
    all: explore; reflexivity.
Qed.

Lemma no_version_check_before_reconciling_witness :
  exists m, invoke es8_cluster (mk_env false 0 None)
              (r1 "present" false false) tt
            = (FailJson m, mk_store tt [] (mk_result false None None)).
Proof.
  exact (proj1 (proj2 (proj2 (no_version_check_before_reconciling
                                es8_cluster (mk_env false 0 None)
                                (r1 "present" false false) tt)))
           eq_refl).
Defined.

(** * Further properties of the reconcilers *)

(** ** Every run *)

Lemma run_invariants {World} (respond : remote World)
    (env : environment) (x : resource) (w : World) :
  In (trace (snd (invoke respond env x w))) (trace_shapes x)
  /\ match fst (invoke respond env x w) with
     | Done r =>
         (changed r = true <-> msg r <> None)
         /\ (check_mode (module_of x) = true -> diff r = None)
     | _ => True
     end.
Proof.
  remember (trace_shapes x) as shapes eqn:Hs. symmetry in Hs.
  destruct x as [r|u]; cbn [module_of].
  - explore; (split;
      [subst shapes; unfold trace_shapes; pick_shape
      |first [exact I | split; [split|]; intros; congruence]]).
  - explore; (split;
      [subst shapes; unfold trace_shapes; pick_shape
      |first [exact I | split; [split|]; intros; congruence]]).
Qed.

(** X1: the calls of an invocation form one of eight sequences: nothing;
    the listing alone; listing and delete; listing and pre-fetch; listing and
    put, possibly followed by a fetch; listing, pre-fetch and put, possibly
    followed by a fetch.  All of them address the invocation's own kind and
    name, and the listing always comes first. *)
Theorem trace_is_one_of_eight_sequences {World} (respond : remote World)
    (env : environment) (x : resource) (w : World) :
  In (trace (snd (invoke respond env x w))) (trace_shapes x).
Proof. exact (proj1 (run_invariants respond env x w)). Qed.

Lemma mutating_put_call (x : resource) (b : bool) :
  mutating (put_call x b) = true.
Proof. destruct x; reflexivity. Qed.

(** X2: whatever the cluster answers, an invocation issues at most one
    mutating call (a put or a delete) and at most three reads. *)
Theorem at_most_one_write_and_three_reads {World} (respond : remote World)
    (env : environment) (x : resource) (w : World) :
  (List.length (filter mutating (trace (snd (invoke respond env x w))))
   <= 1)%nat
  /\ (List.length (filter (fun c => negb (mutating c))
                     (trace (snd (invoke respond env x w))))
      <= 3)%nat.
Proof.
  pose proof (proj1 (run_invariants respond env x w)) as H.
  unfold trace_shapes in H. cbn [In] in H.
  repeat (destruct H as [H|H]; [rewrite <- H; clear H|]);
    try contradiction;
    cbn [filter]; rewrite ?mutating_put_call;
    destruct x; cbn; lia.
Qed.

(** X3: a returned result carries a message exactly when it reports a
    change. *)
Theorem message_iff_changed {World} (respond : remote World)
    (env : environment) (x : resource) (w : World) (r : result_dict) :
  fst (invoke respond env x w) = Done r ->
  (changed r = true <-> msg r <> None).
Proof.
  intros Hr. pose proof (proj2 (run_invariants respond env x w)) as H.
  rewrite Hr in H. exact (proj1 H).
Qed.

Lemma message_iff_changed_witness :
  changed (mk_result true (Some "r1 has been created") None) = true
  <-> msg (mk_result true (Some "r1 has been created") None) <> None.
Proof.
  exact (message_iff_changed es8_cluster env9 (r1 "present" false false) tt
           (mk_result true (Some "r1 has been created") None) eq_refl).
Defined.

(** X4: in check mode a returned result never carries a diff, also when diff
    output was requested. *)
Theorem check_mode_has_no_diff {World} (respond : remote World)
    (env : environment) (x : resource) (w : World) (r : result_dict) :
  check_mode (module_of x) = true ->
  fst (invoke respond env x w) = Done r ->
  diff r = None.
Proof.
  intros Hcm Hr. pose proof (proj2 (run_invariants respond env x w)) as H.
  rewrite Hr in H. exact (proj2 H Hcm).
Qed.

Lemma check_mode_has_no_diff_witness :
  diff (mk_result true (Some "r1 would be created") None) = None.
Proof.
  exact (check_mode_has_no_diff es8_cluster env9 (r1 "present" true true) tt
           (mk_result true (Some "r1 would be created") None)
           eq_refl eq_refl).
Defined.

(** ** Creation *)

(** X5: outside check mode, when the put response has [created] equal to
    [True] the result is [changed = true] with "<name> has been created",
    whether or not the name was in the listing.  Without diff output the put
    is the last call; with diff output the resource is fetched once more and
    the diff is [{before: '', after: str(body)}], the whole response body for
    a user too. *)
Theorem created_is_reported {World} (respond : remote World)
    (env : environment) (x : resource) (w w1 w2 w3 : World)
    (listing pre res : dict) :
  client_ok env ->
  state_of x = "present" ->
  check_mode (module_of x) = false ->
  respond (list_call x) w = (inr listing, w1) ->
  (dict_mem (name_of x) listing = true ->
   respond (get_call x) w1 = (inr pre, w2)) ->
  (dict_mem (name_of x) listing = false -> w2 = w1) ->
  respond (put_call x (dict_mem (name_of x) listing)) w2 = (inr res, w3) ->
  created_flag x res = Some (VBool true) ->
  (_diff (module_of x) = false ->
   fst (invoke respond env x w)
   = Done (mk_result true (Some (name_of x ++ " has been created")) None)
   /\ trace (snd (invoke respond env x w))
      = (reads_before_put x (dict_mem (name_of x) listing)
         ++ [put_call x (dict_mem (name_of x) listing)])%list)
  /\ (_diff (module_of x) = true ->
      forall post w4,
        respond (get_call x) w3 = (inr post, w4) ->
        fst (invoke respond env x w)
        = Done (mk_result true (Some (name_of x ++ " has been created"))
                  (Some (mk_diff (Lit "") (Str (VDict post)))))
        /\ trace (snd (invoke respond env x w))
           = (reads_before_put x (dict_mem (name_of x) listing)
              ++ [put_call x (dict_mem (name_of x) listing); get_call x])%list).
Proof.
  intros [Hlib Hctor] Hst Hcm Hl Hpre Hw Hp Hc.
  destruct (dict_mem (name_of x) listing) eqn:Hm.
  - specialize (Hpre eq_refl). clear Hw.
    destruct x as [r|u];
      cbn [state_of list_call name_of module_of get_call put_call
           reads_before_put] in *.
    + apply created_flag_role in Hc. destruct Hc as [d [Hr Hc]].
      split; [intros Hd | intros Hd post w4 Hg]; follow; split; reflexivity.
    + cbn [created_flag] in Hc. rewrite andb_true_r in Hp.
      split; [intros Hd | intros Hd post w4 Hg]; follow; split; reflexivity.
  - specialize (Hw eq_refl). subst w2. clear Hpre.
    destruct x as [r|u];
      cbn [state_of list_call name_of module_of get_call put_call
           reads_before_put] in *.
    + apply created_flag_role in Hc. destruct Hc as [d [Hr Hc]].
      split; [intros Hd | intros Hd post w4 Hg]; follow; split; reflexivity.
    + cbn [created_flag] in Hc. rewrite andb_false_r in Hp.
      split; [intros Hd | intros Hd post w4 Hg]; follow; split; reflexivity.
Qed.

Lemma created_is_reported_witness :
  fst (invoke scripted env9 (r1 "present" false true)
         [inr []; inr [("role", VDict [("created", VBool true)])];
          inr [("r1", VDict [])]])
  = Done (mk_result true (Some "r1 has been created")
            (Some (mk_diff (Lit "") (Str (VDict [("r1", VDict [])]))))).
Proof.
  refine (proj1 (proj2 (created_is_reported scripted env9
                          (r1 "present" false true)
                          _ [inr [("role", VDict [("created", VBool true)])];
                             inr [("r1", VDict [])]]
                          [inr [("role", VDict [("created", VBool true)])];
                           inr [("r1", VDict [])]]
                          [inr [("r1", VDict [])]]
                          [] [] [("role", VDict [("created", VBool true)])]
                          _ _ _ _ _ _ _ _)
                   _ [("r1", VDict [])] [] _)); discharge.
Defined.

(** ** Failures of the cluster *)

(** X6: an exception of the put call ends the invocation through [fail_json]
    with "Failed to create/update <kind> '<name>': <error>"; no call follows
    the put and no result is returned. *)
Theorem put_failure_is_fatal {World} (respond : remote World)
    (env : environment) (x : resource) (w w1 w2 w3 : World)
    (listing pre : dict) (e : exn) :
  client_ok env ->
  state_of x = "present" ->
  check_mode (module_of x) = false ->
  respond (list_call x) w = (inr listing, w1) ->
  (dict_mem (name_of x) listing = true ->
   respond (get_call x) w1 = (inr pre, w2)) ->
  (dict_mem (name_of x) listing = false -> w2 = w1) ->
  respond (put_call x (dict_mem (name_of x) listing)) w2 = (inl e, w3) ->
  fst (invoke respond env x w)
  = FailJson ("Failed to create/update " ++ singular x ++ " '"
              ++ name_of x ++ "': " ++ str_exn e)
  /\ trace (snd (invoke respond env x w))
     = (reads_before_put x (dict_mem (name_of x) listing)
        ++ [put_call x (dict_mem (name_of x) listing)])%list.
Proof.
  intros [Hlib Hctor] Hst Hcm Hl Hpre Hw Hp.
  destruct (dict_mem (name_of x) listing) eqn:Hm.
  - specialize (Hpre eq_refl). clear Hw.
    destruct x as [r|u];
      cbn [state_of list_call name_of module_of get_call put_call
           reads_before_put singular] in *;
      rewrite ?andb_true_r in Hp; follow; split; reflexivity.
  - specialize (Hw eq_refl). subst w2. clear Hpre.
    destruct x as [r|u];
      cbn [state_of list_call name_of module_of get_call put_call
           reads_before_put singular] in *;
      rewrite ?andb_false_r in Hp; follow; split; reflexivity.
Qed.

Lemma put_failure_is_fatal_witness :
  fst (invoke scripted env9 (u1 "present" false false "always")
         [inr []; inl (TransportError "timed out")])
  = FailJson "Failed to create/update user 'u1': timed out".
Proof.
  refine (proj1 (put_failure_is_fatal scripted env9
                   (u1 "present" false false "always")
                   _ [inl (TransportError "timed out")]
                   [inl (TransportError "timed out")] [] [] []
                   (TransportError "timed out") _ _ _ _ _ _ _)); discharge.
Defined.

(** X7: an exception of the delete call ends the invocation through
    [fail_json] with "Failed to delete <kind> '<name>': <error>". *)
Theorem delete_failure_is_fatal {World} (respond : remote World)
    (env : environment) (x : resource) (w w1 w2 : World)
    (listing : dict) (e : exn) :
  client_ok env ->
  state_of x = "absent" ->
  check_mode (module_of x) = false ->
  respond (list_call x) w = (inr listing, w1) ->
  dict_mem (name_of x) listing = true ->
  respond (delete_call x) w1 = (inl e, w2) ->
  fst (invoke respond env x w)
  = FailJson ("Failed to delete " ++ singular x ++ " '"
              ++ name_of x ++ "': " ++ str_exn e)
  /\ trace (snd (invoke respond env x w)) = [list_call x; delete_call x].
Proof.
  intros [Hlib Hctor] Hst Hcm Hl Hm Hd.
  destruct x as [r|u];
    cbn [state_of list_call name_of module_of delete_call singular] in *;
    follow; split; reflexivity.
Qed.

Lemma delete_failure_is_fatal_witness :
  fst (invoke scripted env9 (r1 "absent" false false)
         [inr [("r1", VDict [])]; inl (TransportError "timed out")])
  = FailJson "Failed to delete role 'r1': timed out".
Proof.
  refine (proj1 (delete_failure_is_fatal scripted env9
                   (r1 "absent" false false)
                   _ [inl (TransportError "timed out")] []
                   [("r1", VDict [])] (TransportError "timed out")
                   _ _ _ _ _ _)); discharge.
Defined.

(** X8: a delete response without a [found] key is not absorbed: after the
    delete call has been issued, [KeyError('found')] propagates uncaught. *)
Theorem delete_response_without_found_raises {World} (respond : remote World)
    (env : environment) (x : resource) (w w1 w2 : World)
    (listing res : dict) :
  client_ok env ->
  state_of x = "absent" ->
  check_mode (module_of x) = false ->
  respond (list_call x) w = (inr listing, w1) ->
  dict_mem (name_of x) listing = true ->
  respond (delete_call x) w1 = (inr res, w2) ->
  dict_get "found" res = None ->
  fst (invoke respond env x w) = Raised (KeyError "found")
  /\ trace (snd (invoke respond env x w)) = [list_call x; delete_call x].
Proof.
  intros [Hlib Hctor] Hst Hcm Hl Hm Hd Hf.
  destruct x as [r|u];
    cbn [state_of list_call name_of module_of delete_call] in *;
    follow; split; reflexivity.
Qed.

Lemma delete_response_without_found_raises_witness :
  fst (invoke scripted env9 (r1 "absent" false false)
         [inr [("r1", VDict [])]; inr []])
  = Raised (KeyError "found").
Proof.
  refine (proj1 (delete_response_without_found_raises scripted env9
                   (r1 "absent" false false)
                   _ [inr []] [] [("r1", VDict [])] []
                   _ _ _ _ _ _ _)); discharge.
Defined.

(** X9: a put response that does not hold the creation flag where the class
    reads it ([res['role']['created']] for a role, [res['created']] for a
    user) makes the invocation end in an uncaught exception, after the put
    call has been issued and with no further call. *)
Theorem put_response_without_flag_raises {World} (respond : remote World)
    (env : environment) (x : resource) (w w1 w2 w3 : World)
    (listing pre res : dict) :
  client_ok env ->
  state_of x = "present" ->
  check_mode (module_of x) = false ->
  respond (list_call x) w = (inr listing, w1) ->
  (dict_mem (name_of x) listing = true ->
   respond (get_call x) w1 = (inr pre, w2)) ->
  (dict_mem (name_of x) listing = false -> w2 = w1) ->
  respond (put_call x (dict_mem (name_of x) listing)) w2 = (inr res, w3) ->
  created_flag x res = None ->
  (exists e, fst (invoke respond env x w) = Raised e)
  /\ trace (snd (invoke respond env x w))
     = (reads_before_put x (dict_mem (name_of x) listing)
        ++ [put_call x (dict_mem (name_of x) listing)])%list.
Proof.
  intros [Hlib Hctor] Hst Hcm Hl Hpre Hw Hp Hc.
  destruct (dict_mem (name_of x) listing) eqn:Hm.
  - specialize (Hpre eq_refl). clear Hw.
    destruct x as [r|u];
      cbn [state_of list_call name_of module_of get_call put_call
           reads_before_put created_flag] in *;
      rewrite ?andb_true_r in Hp.
    + follow. destruct (dict_get "role" res) as [[| | | | |d]|] eqn:Hr;
        follow; split; try reflexivity; eexists; reflexivity.
    + follow; split; try reflexivity; eexists; reflexivity.
  - specialize (Hw eq_refl). subst w2. clear Hpre.
    destruct x as [r|u];
      cbn [state_of list_call name_of module_of get_call put_call
           reads_before_put created_flag] in *;
      rewrite ?andb_false_r in Hp.
    + follow. destruct (dict_get "role" res) as [[| | | | |d]|] eqn:Hr;
        follow; split; try reflexivity; eexists; reflexivity.
    + follow; split; try reflexivity; eexists; reflexivity.
Qed.

Lemma put_response_without_flag_raises_witness :
  trace (snd (invoke scripted env9 (r1 "present" false false)
                [inr []; inr [("role", VNone)]]))
  = [list_call (r1 "present" false false);
     put_call (r1 "present" false false) false].
Proof.
  refine (proj2 (put_response_without_flag_raises scripted env9
                   (r1 "present" false false)
                   _ [inr [("role", VNone)]] [inr [("role", VNone)]] []
                   [] [] [("role", VNone)]
                   _ _ _ _ _ _ _ _)); discharge.
Defined.

(** X10: on the update path an exception of the fetch that follows the put is
    not turned into [fail_json]: it propagates uncaught, the put having been
    issued. *)
Theorem post_fetch_failure_propagates {World} (respond : remote World)
    (env : environment) (x : resource) (w w1 w2 w3 w4 : World)
    (listing pre res : dict) (created : value) (e : exn) :
  client_ok env ->
  state_of x = "present" ->
  check_mode (module_of x) = false ->
  respond (list_call x) w = (inr listing, w1) ->
  dict_mem (name_of x) listing = true ->
  respond (get_call x) w1 = (inr pre, w2) ->
  respond (put_call x true) w2 = (inr res, w3) ->
  created_flag x res = Some created ->
  is_True created = false ->
  respond (get_call x) w3 = (inl e, w4) ->
  fst (invoke respond env x w) = Raised e
  /\ trace (snd (invoke respond env x w))
     = [list_call x; get_call x; put_call x true; get_call x].
Proof.
  intros [Hlib Hctor] Hst Hcm Hl Hm Hg Hp Hc Ht Hg'.
  destruct x as [r|u];
    cbn [state_of list_call name_of module_of get_call put_call] in *.
  - apply created_flag_role in Hc. destruct Hc as [d [Hr Hc]].
    follow. split; reflexivity.
  - cbn [created_flag] in Hc. rewrite andb_true_r in Hp.
    follow. split; reflexivity.
Qed.

Lemma post_fetch_failure_propagates_witness :
  fst (invoke scripted env9 (u1 "present" false false "always")
         [inr [("u1", VDict [])]; inr [("u1", VDict [])];
          inr [("created", VBool false)]])
  = Raised (TransportError "connection refused").
Proof.
  refine (proj1 (post_fetch_failure_propagates scripted env9
                   (u1 "present" false false "always")
                   _ [inr [("u1", VDict [])]; inr [("created", VBool false)]]
                   [inr [("created", VBool false)]] [] []
                   [("u1", VDict [])] [("u1", VDict [])]
                   [("created", VBool false)] (VBool false)
                   (TransportError "connection refused")
                   _ _ _ _ _ _ _ _ _ _)); discharge.
Defined.

(** X11: when the client constructor raises, no call reaches the cluster; an
    [ApiError] ends the invocation through [fail_json] with its message, any
    other exception propagates uncaught. *)
Theorem constructor_failure_precedes_every_call {World}
    (respond : remote World) (env : environment) (x : resource) (w : World)
    (e : exn) :
  HAS_ELASTICSEARCH env = true ->
  Elasticsearch_raises env = Some e ->
  fst (invoke respond env x w)
  = match e with
    | ApiError m => FailJson m
    | _ => Raised e
    end
  /\ trace (snd (invoke respond env x w)) = [].
Proof.
  intros Hlib Hctor.
  destruct x as [r|u]; follow; destruct e; split; reflexivity.
Qed.

Lemma constructor_failure_precedes_every_call_witness :
  fst (invoke es8_cluster
         (mk_env true 9 (Some (TransportError "No such file or directory")))
         (r1 "present" false false) tt)
  = Raised (TransportError "No such file or directory").
Proof.
  refine (proj1 (constructor_failure_precedes_every_call es8_cluster
                   (mk_env true 9
                      (Some (TransportError "No such file or directory")))
                   (r1 "present" false false) tt
                   (TransportError "No such file or directory") _ _));
    discharge.
Defined.

(** ** Resources that are already as desired *)

(** X12: outside check mode, when the resource exists and the fetch after the
    put returns the body the fetch before it returned, the result is
    [changed = false] with neither message nor diff, although the put was
    issued. *)
Theorem unchanged_snapshot_is_unchanged {World} (respond : remote World)
    (env : environment) (x : resource) (w w1 w2 w3 w4 : World)
    (listing snapshot res : dict) (created a : value) :
  client_ok env ->
  state_of x = "present" ->
  check_mode (module_of x) = false ->
  respond (list_call x) w = (inr listing, w1) ->
  dict_mem (name_of x) listing = true ->
  respond (get_call x) w1 = (inr snapshot, w2) ->
  respond (put_call x true) w2 = (inr res, w3) ->
  created_flag x res = Some created ->
  is_True created = false ->
  respond (get_call x) w3 = (inr snapshot, w4) ->
  compared x snapshot = Some a ->
  fst (invoke respond env x w) = Done (mk_result false None None)
  /\ trace (snd (invoke respond env x w))
     = [list_call x; get_call x; put_call x true; get_call x].
Proof.
  intros [Hlib Hctor] Hst Hcm Hl Hm Hg Hp Hc Ht Hg' Ha.
  destruct x as [r|u];
    cbn [state_of list_call name_of module_of get_call put_call
         compared] in *.
  - apply created_flag_role in Hc. destruct Hc as [d [Hr Hc]].
    follow. unfold py_ne. rewrite py_eq_refl. split; reflexivity.
  - cbn [created_flag] in Hc. rewrite andb_true_r in Hp.
    destruct (dict_get_default (User.user_name u) snapshot (VDict []))
      as [| | | | |data] eqn:Hdata; try discriminate Ha.
    follow.
    change (py_ne _ _)
      with (negb (py_eq (VDict (comparable_projection data))
                        (VDict (comparable_projection data)))).
    rewrite py_eq_refl. split; reflexivity.
Qed.

Lemma unchanged_snapshot_is_unchanged_witness :
  fst (invoke scripted env9 (r1 "present" false true)
         [inr [("r1", VDict [])]; inr [("r1", VDict [("cluster", VList [])])];
          inr [("role", VDict [("created", VBool false)])];
          inr [("r1", VDict [("cluster", VList [])])]])
  = Done (mk_result false None None).
Proof.
  refine (proj1 (unchanged_snapshot_is_unchanged scripted env9
                   (r1 "present" false true)
                   _ [inr [("r1", VDict [("cluster", VList [])])];
                      inr [("role", VDict [("created", VBool false)])];
                      inr [("r1", VDict [("cluster", VList [])])]]
                   [inr [("role", VDict [("created", VBool false)])];
                    inr [("r1", VDict [("cluster", VList [])])]]
                   [inr [("r1", VDict [("cluster", VList [])])]] []
                   [("r1", VDict [])] [("r1", VDict [("cluster", VList [])])]
                   [("role", VDict [("created", VBool false)])]
                   (VBool false)
                   (VDict [("r1", VDict [("cluster", VList [])])])
                   _ _ _ _ _ _ _ _ _ _ _)); discharge.
Defined.

(** X13: check mode does not predict what the run reports.  For an existing
    resource that the put leaves as it was, the run outside check mode returns
    [changed = false], while the same desired state in check mode against the
    same cluster returns [changed = true] with "<name> would be updated". *)
Theorem check_mode_predicts_update_for_unchanged_resource {World}
    (respond : remote World) (env : environment) (x : resource)
    (w w1 w2 w3 w4 : World) (listing snapshot res : dict)
    (created a : value) :
  client_ok env ->
  state_of x = "present" ->
  respond (list_call x) w = (inr listing, w1) ->
  dict_mem (name_of x) listing = true ->
  respond (get_call x) w1 = (inr snapshot, w2) ->
  respond (put_call x true) w2 = (inr res, w3) ->
  created_flag x res = Some created ->
  is_True created = false ->
  respond (get_call x) w3 = (inr snapshot, w4) ->
  compared x snapshot = Some a ->
  fst (invoke respond env (with_check_mode false x) w)
  = Done (mk_result false None None)
  /\ fst (invoke respond env (with_check_mode true x) w)
     = Done (mk_result true (Some (name_of x ++ " would be updated")) None).
Proof.
  intros [Hlib Hctor] Hst Hl Hm Hg Hp Hc Ht Hg' Ha.
  destruct x as [r|u];
    cbn [state_of list_call name_of module_of get_call put_call
         compared with_check_mode] in *.
  - apply created_flag_role in Hc. destruct Hc as [d [Hr Hc]].
    split; follow; [|reflexivity].
    unfold py_ne. rewrite py_eq_refl. reflexivity.
  - cbn [created_flag] in Hc. rewrite andb_true_r in Hp.
    destruct (dict_get_default (User.user_name u) snapshot (VDict []))
      as [| | | | |data] eqn:Hdata; try discriminate Ha.
    split; follow; [|reflexivity].
    match goal with
    | |- context [User.put_kwargs ?r ?p] =>
        change (User.put_kwargs r p) with (User.put_kwargs u p)
    end.
    follow.
    change (py_ne _ _)
      with (negb (py_eq (VDict (comparable_projection data))
                        (VDict (comparable_projection data)))).
    rewrite py_eq_refl. reflexivity.
Qed.

Lemma check_mode_predicts_update_for_unchanged_resource_witness :
  fst (invoke scripted env9 (with_check_mode true (r1 "present" false true))
         [inr [("r1", VDict [])]; inr [("r1", VDict [("cluster", VList [])])];
          inr [("role", VDict [("created", VBool false)])];
          inr [("r1", VDict [("cluster", VList [])])]])
  = Done (mk_result true (Some "r1 would be updated") None).
Proof.
  refine (proj2 (check_mode_predicts_update_for_unchanged_resource
                   scripted env9 (r1 "present" false true)
                   _ [inr [("r1", VDict [("cluster", VList [])])];
                      inr [("role", VDict [("created", VBool false)])];
                      inr [("r1", VDict [("cluster", VList [])])]]
                   [inr [("role", VDict [("created", VBool false)])];
                    inr [("r1", VDict [("cluster", VList [])])]]
                   [inr [("r1", VDict [("cluster", VList [])])]] []
                   [("r1", VDict [])] [("r1", VDict [("cluster", VList [])])]
                   [("role", VDict [("created", VBool false)])]
                   (VBool false)
                   (VDict [("r1", VDict [("cluster", VList [])])])
                   _ _ _ _ _ _ _ _ _ _));
    solve [split; reflexivity | reflexivity | discriminate].
Defined.

(** * Properties of the certificate helpers *)

(** ** Rendering bytes *)

Lemma unhex_format (b : byte) (rest : string) :
  match Certs.format_02X b ++ rest with
  | String hi (String lo rest') =>
      Certs.unhex_pair hi lo = Some b /\ rest' = rest
  | _ => False
  end.
Proof. destruct b; split; reflexivity. Qed.

Lemma bytes_to_hex_cons (b : byte) (bs : list byte) :
  Certs.bytes_to_hex (b :: bs)
  = match bs with
    | [] => Certs.format_02X b
    | _ :: _ => Certs.format_02X b ++ ":" ++ Certs.bytes_to_hex bs
    end.
Proof. destruct bs; reflexivity. Qed.

Lemma hex_round_trip (bs : list byte) :
  Certs.hex_to_bytes (Certs.bytes_to_hex bs) = Some bs.
Proof.
  induction bs as [|b bs IH]; [reflexivity|].
  rewrite bytes_to_hex_cons. destruct bs as [|b' bs].
  - pose proof (unhex_format b "") as H.
    replace (Certs.format_02X b ++ "") with (Certs.format_02X b) in H
      by (destruct b; reflexivity).
    destruct (Certs.format_02X b) as [|hi [|lo rest]]; try contradiction.
    destruct H as [H1 H2]. subst rest. cbn. rewrite H1. reflexivity.
  - pose proof (unhex_format b (":" ++ Certs.bytes_to_hex (b' :: bs))) as H.
    destruct (Certs.format_02X b ++ ":" ++ Certs.bytes_to_hex (b' :: bs))
      as [|hi [|lo rest]]; try contradiction.
    destruct H as [H1 H2]. subst rest.
    cbn [Certs.hex_to_bytes]. rewrite H1.
    cbn [append]. rewrite IH. reflexivity.
Qed.

(** X14: different byte strings have different renderings. *)
Theorem bytes_to_hex_injective (a b : list byte) :
  Certs.bytes_to_hex a = Certs.bytes_to_hex b -> a = b.
Proof.
  intros H. apply (f_equal Certs.hex_to_bytes) in H.
  rewrite !hex_round_trip in H. inversion H. reflexivity.
Qed.

Lemma bytes_to_hex_injective_witness : [x0a; xff]%byte = [x0a; xff]%byte.
Proof. exact (bytes_to_hex_injective [x0a; xff]%byte [x0a; xff]%byte eq_refl). Defined.

Lemma length_append (s t : string) :
  String.length (s ++ t) = (String.length s + String.length t)%nat.
Proof. induction s as [|c s IH]; cbn; [reflexivity|]. rewrite IH. reflexivity. Qed.

Lemma str_append_assoc (s t u : string) : (s ++ t) ++ u = s ++ (t ++ u).
Proof. induction s as [|c s IH]; cbn; [reflexivity|]. rewrite IH. reflexivity. Qed.

Lemma format_02X_length (b : byte) : String.length (Certs.format_02X b) = 2%nat.
Proof. reflexivity. Qed.

(** X15: the rendering of [n] bytes has [3n - 1] characters, and none for the
    empty byte string (the subtraction stops at zero). *)
Theorem bytes_to_hex_length (bs : list byte) :
  String.length (Certs.bytes_to_hex bs) = (3 * List.length bs - 1)%nat.
Proof.
  induction bs as [|b bs IH]; [reflexivity|].
  rewrite bytes_to_hex_cons. destruct bs as [|b' bs]; [reflexivity|].
  rewrite !length_append, IH, format_02X_length. cbn [String.length List.length]. lia.
Qed.

Lemma forallb_append (f : ascii -> bool) (s t : string) :
  forallb f (list_ascii_of_string (s ++ t))
  = forallb f (list_ascii_of_string s) && forallb f (list_ascii_of_string t).
Proof.
  induction s as [|c s IH]; cbn; [reflexivity|].
  rewrite IH, andb_assoc. reflexivity.
Qed.

(** X16: a rendering holds only the digits [0-9], the capitals [A-F] and
    colons. *)
Theorem bytes_to_hex_alphabet (bs : list byte) :
  forallb Certs.is_hex_or_colon
          (list_ascii_of_string (Certs.bytes_to_hex bs)) = true.
Proof.
  induction bs as [|b bs IH]; [reflexivity|].
  rewrite bytes_to_hex_cons. destruct bs as [|b' bs].
  - destruct b; reflexivity.
  - rewrite !forallb_append, IH, andb_true_r.
    destruct b; reflexivity.
Qed.

(** X17: the rendering of two non-empty byte strings put together is the two
    renderings joined by a colon. *)
Theorem bytes_to_hex_app (a b : list byte) :
  a <> [] -> b <> [] ->
  Certs.bytes_to_hex (a ++ b)
  = Certs.bytes_to_hex a ++ ":" ++ Certs.bytes_to_hex b.
Proof.
  intros Ha Hb. induction a as [|x a IH]; [contradiction Ha; reflexivity|].
  cbn [app]. rewrite !bytes_to_hex_cons.
  destruct a as [|y a].
  - cbn [app]. destruct b; [contradiction Hb; reflexivity|reflexivity].
  - cbn [app] in *. rewrite IH by discriminate.
    rewrite !str_append_assoc. reflexivity.
Qed.

Lemma bytes_to_hex_app_witness :
  Certs.bytes_to_hex (app [x0a]%byte [xff; x00]%byte) = "0A:FF:00".
Proof.
  refine (eq_trans (bytes_to_hex_app [x0a]%byte [xff; x00]%byte _ _) eq_refl);
    discriminate.
Defined.

(** ** Supported extensions *)

Lemma prefix_iff (s t : string) :
  String.prefix s t = true <-> exists b, t = s ++ b.
Proof.
  revert t. induction s as [|c s IH]; intros t.
  - split; [intros _; exists t; reflexivity|intros _; destruct t; reflexivity].
  - destruct t as [|c' t]; cbn.
    + split; [discriminate|intros [b H]; discriminate H].
    + destruct (ascii_dec c c') as [E|E].
      * subst c'. rewrite IH. split; intros [b H]; exists b.
        -- rewrite H. reflexivity.
        -- inversion H. reflexivity.
      * split; [discriminate|intros [b H]; inversion H; congruence].
Qed.

Lemma str_in_iff (s t : string) :
  Certs.str_in s t = true <-> exists a b, t = a ++ s ++ b.
Proof.
  induction t as [|c t IH].
  - cbn [Certs.str_in]. rewrite orb_false_r, prefix_iff. split.
    + intros [b H]. exists "", b. exact H.
    + intros [a [b H]]. destruct a as [|x a]; [|discriminate H].
      exists b. exact H.
  - cbn [Certs.str_in]. rewrite orb_true_iff, IH, prefix_iff. split.
    + intros [[b H]|[a [b H]]].
      * exists "", b. exact H.
      * exists (String c a), b. cbn. rewrite H. reflexivity.
    + intros [a [b H]]. destruct a as [|x a].
      * left. exists b. exact H.
      * right. inversion H. exists a, b. reflexivity.
Qed.

Lemma check_supported_extensions_iff (extension_name : string) :
  Certs.check_supported_extensions extension_name = true
  <-> exists name a b,
        In name (map fst Certs.SUPPORTED_EXTENSIONS)
        /\ extension_name = a ++ name ++ b.
Proof.
  unfold Certs.check_supported_extensions. rewrite existsb_exists. split.
  - intros [name [Hin H]]. apply str_in_iff in H. destruct H as [a [b H]].
    exists name, a, b. split; [exact Hin|exact H].
  - intros [name [a [b [Hin H]]]]. exists name. split; [exact Hin|].
    apply str_in_iff. exists a, b. exact H.
Qed.

(** X18: [check_supported_extensions] accepts exactly the names in which one
    of the three supported names occurs, anywhere. *)
Theorem supported_extension_is_substring_match (extension_name : string) :
  Certs.check_supported_extensions extension_name = true
  <-> exists name a b,
        In name ["basicConstraints"; "subjectKeyIdentifier";
                 "authorityKeyIdentifier"]
        /\ extension_name = a ++ name ++ b.
Proof. exact (check_supported_extensions_iff extension_name). Qed.

Lemma str_mem_In (k : string) (l : list string) :
  str_mem k l = true <-> In k l.
Proof.
  induction l as [|x l IH]; cbn; [split; [discriminate|contradiction]|].
  rewrite orb_true_iff, IH, String.eqb_eq. split; intros [H|H]; auto.
Qed.

(** X19: [check_supported_keys] accepts a key only for an extension name that
    is exactly one of the three supported names, with the key in that name's
    list; such a name is also accepted by [check_supported_extensions]. *)
Theorem supported_key_needs_exact_name (key extension_name : string) :
  Certs.check_supported_keys key extension_name = true ->
  (exists keys, In (extension_name, keys) Certs.SUPPORTED_EXTENSIONS
                /\ In key keys)
  /\ Certs.check_supported_extensions extension_name = true.
Proof.
  unfold Certs.check_supported_keys. intros H. apply str_mem_In in H.
  assert (E : exists keys, In (extension_name, keys) Certs.SUPPORTED_EXTENSIONS
                           /\ In key keys).
  { unfold Certs.SUPPORTED_EXTENSIONS in *.
    cbn [Certs.supported_keys_of] in H.
    repeat match type of H with
           | context [String.eqb ?a ?b] =>
               let E := fresh "E" in
               destruct (String.eqb a b) eqn:E;
               [apply String.eqb_eq in E; subst a;
                eexists; split; [|exact H]; cbn [In]; auto 6|]
           end.
    destruct H. }
  split; [exact E|].
  destruct E as [keys [Hin _]].
  apply check_supported_extensions_iff.
  exists extension_name, "", "". split.
  - unfold Certs.SUPPORTED_EXTENSIONS in Hin. cbn [In] in Hin.
    destruct Hin as [Hin|[Hin|[Hin|[]]]]; inversion Hin; cbn; auto.
  - cbn. clear. induction extension_name as [|c s IH]; cbn; [reflexivity|].
    rewrite <- IH. reflexivity.
Qed.

Lemma supported_key_needs_exact_name_witness :
  Certs.check_supported_extensions "subjectKeyIdentifier" = true.
Proof.
  exact (proj2 (supported_key_needs_exact_name "_digest"
                  "subjectKeyIdentifier" eq_refl)).
Defined.

Lemma text_dict_get_set_same k t d :
  Certs.text_dict_get k (Certs.text_dict_set k t d) = Some t.
Proof.
  induction d as [|[k' t'] r IH]; cbn.
  - rewrite String.eqb_refl. reflexivity.
  - destruct (String.eqb k k') eqn:E; cbn; rewrite ?String.eqb_refl, ?E;
      [reflexivity|exact IH].
Qed.

Lemma text_dict_get_set_other k k' t d :
  k <> k' ->
  Certs.text_dict_get k (Certs.text_dict_set k' t d) = Certs.text_dict_get k d.
Proof.
  intros Hne. apply String.eqb_neq in Hne.
  induction d as [|[k2 t2] r IH]; cbn.
  - rewrite Hne. reflexivity.
  - destruct (String.eqb k' k2) eqn:E; cbn.
    + apply String.eqb_eq in E. subst k2. rewrite Hne. reflexivity.
    + rewrite IH. reflexivity.
Qed.

Lemma load_values_loop_get (name : string) (items : list (string * Certs.attribute)) :
  NoDup (map fst items) ->
  forall acc k,
    Certs.text_dict_get k (Certs.load_values_loop name items acc)
    = match find (fun kv => String.eqb k (fst kv)) items with
      | Some (_, v) =>
          if Certs.check_supported_keys k name then Some (Certs.render v)
          else Certs.text_dict_get k acc
      | None => Certs.text_dict_get k acc
      end.
Proof.
  induction items as [|[key value] r IH]; intros Hnd acc k; [reflexivity|].
  cbn [map fst] in Hnd. inversion Hnd as [|? ? Hnotin Hnd']; subst.
  cbn [Certs.load_values_loop find fst].
  assert (Hfind : String.eqb k key = true ->
                  find (fun kv => String.eqb k (fst kv)) r = None).
  { intros E. apply String.eqb_eq in E. subst key.
    destruct (find (fun kv => String.eqb k (fst kv)) r) as [[k2 v2]|] eqn:F;
      [|reflexivity].
    apply find_some in F. destruct F as [Hin E]. cbn in E.
    apply String.eqb_eq in E. subst k2.
    contradiction Hnotin. apply (in_map fst) in Hin. exact Hin. }
  destruct (Certs.check_supported_keys key name) eqn:Hs; cbn [negb];
    rewrite (IH Hnd').
  - destruct (String.eqb k key) eqn:E.
    + rewrite (Hfind eq_refl). apply String.eqb_eq in E. subst key.
      rewrite Hs. apply text_dict_get_set_same.
    + destruct (find (fun kv => String.eqb k (fst kv)) r) as [[k2 v2]|];
        [destruct (Certs.check_supported_keys k name); [reflexivity|]|];
        apply text_dict_get_set_other, String.eqb_neq, E.
  - destruct (String.eqb k key) eqn:E.
    + rewrite (Hfind eq_refl). apply String.eqb_eq in E. subst key.
      rewrite Hs. reflexivity.
    + reflexivity.
Qed.

(** X20: for the attributes of an extension value (distinct names, as the
    items of a dictionary are), [_values] binds every attribute whose name is
    a supported key of the extension to its text, bytes as colon-separated
    hex, and binds nothing else. *)
Theorem loaded_values_are_the_supported_attributes (name : string)
    (items : list (string * Certs.attribute)) :
  NoDup (map fst items) ->
  (forall key value,
      In (key, value) items ->
      Certs.check_supported_keys key name = true ->
      Certs.text_dict_get key (Certs._load_extension_values name items)
      = Some (Certs.render value))
  /\ (forall key t,
         Certs.text_dict_get key (Certs._load_extension_values name items)
         = Some t ->
         Certs.check_supported_keys key name = true
         /\ exists value, In (key, value) items /\ t = Certs.render value).
Proof.
  intros Hnd. unfold Certs._load_extension_values. split.
  - intros key value Hin Hs. rewrite (load_values_loop_get name items Hnd).
    destruct (find (fun kv => String.eqb key (fst kv)) items)
      as [[k2 v2]|] eqn:F.
    + rewrite Hs. apply find_some in F. destruct F as [Hin2 E]. cbn in E.
      apply String.eqb_eq in E. subst k2.
      f_equal. f_equal.
      clear - Hnd Hin Hin2. induction items as [|[k v] r IH]; [destruct Hin|].
      cbn in Hnd. inversion Hnd as [|? ? Hnotin Hnd']; subst.
      destruct Hin as [Hin|Hin], Hin2 as [Hin2|Hin2].
      * congruence.
      * inversion Hin; subst. contradiction Hnotin.
        apply (in_map fst) in Hin2. exact Hin2.
      * inversion Hin2; subst. contradiction Hnotin.
        apply (in_map fst) in Hin. exact Hin.
      * apply IH; assumption.
    + exfalso. eapply find_none in F; [|exact Hin]. cbn in F.
      rewrite String.eqb_refl in F. discriminate.
  - intros key t H. rewrite (load_values_loop_get name items Hnd) in H.
    destruct (find (fun kv => String.eqb key (fst kv)) items)
      as [[k2 v2]|] eqn:F; [|discriminate H].
    destruct (Certs.check_supported_keys key name); [|discriminate H].
    split; [reflexivity|]. apply find_some in F. destruct F as [Hin E].
    cbn in E. apply String.eqb_eq in E. subst k2.
    exists v2. split; [exact Hin|]. inversion H. reflexivity.
Qed.

Lemma loaded_values_are_the_supported_attributes_witness :
  Certs.text_dict_get "_digest"
    (Certs._load_extension_values "subjectKeyIdentifier"
       [("_digest", Certs.ABytes [xab; xcd]%byte);
        ("_public_bytes", Certs.AOther VNone)])
  = Some (Lit "AB:CD").
Proof.
  refine (proj1 (loaded_values_are_the_supported_attributes
                   "subjectKeyIdentifier"
                   [("_digest", Certs.ABytes [xab; xcd]%byte);
                    ("_public_bytes", Certs.AOther VNone)] _)
            "_digest" (Certs.ABytes [xab; xcd]%byte) _ _).
  - repeat constructor; cbn; intuition discriminate.
  - left. reflexivity.
  - reflexivity.
Defined.

(** * Properties of the version check on a client *)



(** X22: [check_version_compatibility(client)] issues exactly one call,
    [info], whatever the cluster answers; it leaves the result dictionary
    alone, never ends through [fail_json], and an exception of [info]
    propagates. *)
Theorem version_check_reads_info_once {World} (py_int : string -> exn + Z)
    (py_repr : value -> string) (respond : remote World) (env : environment)
    (s : store World) :
  let run := ApiCalls.check_version_compatibility py_int py_repr respond env s
  in
  trace (snd run) = (trace s ++ [info])%list
  /\ result (snd run) = result s
  /\ world (snd run) = snd (respond info (world s))
  /\ (forall m, fst run <> FailJson m)
  /\ (forall e, fst (respond info (world s)) = inl e -> fst run = Raised e).
Proof.
  run_check.
  destruct (respond info (world s)) as [[e|body] w1]; run_check.
  - repeat split; try discriminate. intros e' H. inversion H. reflexivity.
  - destruct (dict_get "version" body) as [[| | | | |ver]|]; run_check;
      try (repeat split; discriminate).
    destruct (dict_get "number" ver) as [number|]; run_check;
      try (repeat split; discriminate).
    destruct (ApiCalls.parse_version py_int py_repr number) as [e|n];
      run_check; try (repeat split; discriminate).
    destruct (Api.check_version_compatibility (ES_CLIENT_VERSION env) n);
      run_check; repeat split; discriminate.
Qed.

(** X23: when [info] answers with a version number whose major part reads as
    [server_ver], [check_version_compatibility(client)] raises [ApiError] if
    the client is 9 and the server 8, and otherwise returns a report with
    [compatible = true] and the two versions. *)
Theorem version_check_follows_the_matrix {World} (py_int : string -> exn + Z)
    (py_repr : value -> string) (respond : remote World) (env : environment)
    (s : store World) (w1 : World) (body ver : dict) (number : value)
    (server_ver : Z) :
  respond info (world s) = (inr body, w1) ->
  dict_get "version" body = Some (VDict ver) ->
  dict_get "number" ver = Some number ->
  ApiCalls.parse_version py_int py_repr number = inr server_ver ->
  let run := ApiCalls.check_version_compatibility py_int py_repr respond env s
  in
  (ES_CLIENT_VERSION env = 9 /\ server_ver = 8 ->
   exists m, fst run = Raised (ApiError m))
  /\ (~ (ES_CLIENT_VERSION env = 9 /\ server_ver = 8) ->
      exists r, fst run = Done r
                /\ Api.compatible r = true
                /\ Api.client_version r = ES_CLIENT_VERSION env
                /\ Api.server_version r = server_ver).
Proof.
  intros Hi Hv Hn Hp. run_check. rewrite Hi. run_check. rewrite Hv.
  run_check. rewrite Hn. run_check. rewrite Hp. run_check.
  unfold Api.check_version_compatibility. split.
  - intros [Hc Hs]. rewrite Hc, Hs. cbn. eexists. reflexivity.
  - intros Hne.
    destruct ((ES_CLIENT_VERSION env =? 9) && (server_ver =? 8)) eqn:E.
    + apply andb_true_iff in E. destruct E as [E1 E2].
      apply Z.eqb_eq in E1, E2. contradiction Hne. split; assumption.
    + destruct ((ES_CLIENT_VERSION env =? 8) && (server_ver =? 9));
        [|destruct (ES_CLIENT_VERSION env =? server_ver)];
        cbn; eexists; repeat split.
Qed.

Lemma version_check_follows_the_matrix_witness :
  exists m,
    fst (ApiCalls.check_version_compatibility (fun _ => inr 8) (fun _ => "")
           es8_cluster env9 (initial tt))
    = Raised (ApiError m).
Proof.
  refine (proj1 (version_check_follows_the_matrix (fun _ => inr 8) (fun _ => "")
                   es8_cluster env9 (initial tt) tt
                   [("version", VDict [("number", VStr "8.19.3")])]
                   [("number", VStr "8.19.3")] (VStr "8.19.3") 8
                   eq_refl eq_refl eq_refl eq_refl) (conj eq_refl eq_refl)).
Defined.
